(** * Lung-disease detector: the threshold rules and the command loop of [main.py]

    The script loads a Keras model once, then reads file paths in a loop and,
    for each one, preprocesses the image, runs inference, compares every class
    probability with a fixed cutoff and prints a report.

    Embedding.
    - A score is a single-precision float and a cutoff a Python float; each
      is modelled by the exact rational ([Q]) it stands for.  The only
      arithmetic the script performs on them is the comparison
      [prob > threshold], which NumPy carries out in single precision; a
      prediction vector is the list of scores, one per class index.
    - Everything the script delegates to the operating system, to Keras/NumPy
      or to the float formatter is a field of a [Runtime] record, over which
      the whole development is parametric.
    - Effects are a writer-plus-error monad: a computation yields the events
      it produced, in order, and either a value or the exception it raised.
      Exceptions are the instances of Python's [Exception] class.
    - Standard input is a finite list of lines; reading past its end raises
      [EOFError], as [input()] does.  A keyboard that can also interrupt is
      modelled beside it.
    - Strings are byte strings; whitespace and letter case are those of
      ASCII. *)

From Stdlib Require Import String Ascii List Bool Arith ZArith QArith Lia.
From Stdlib Require Import DecimalString.
Import ListNotations.
Close Scope Q_scope.
Open Scope string_scope.
Open Scope list_scope.
Open Scope nat_scope.

(** ** Python strings *)

Module PyStr.

Definition nl : string := String "010"%char EmptyString.

Definition dquote : ascii := "034"%char.

Definition squote : ascii := "'"%char.

(** [str.isspace] on the ASCII range: TAB..CR, FS..US and the blank. *)
Definition is_space (c : ascii) : bool :=
  let n := nat_of_ascii c in
  ((9 <=? n) && (n <=? 13)) || ((28 <=? n) && (n <=? 32)).

Fixpoint lstrip (s : string) : string :=
  match s with
  | EmptyString => EmptyString
  | String c s' => if is_space c then lstrip s' else s
  end.

Definition reverse (s : string) : string :=
  string_of_list_ascii (rev (list_ascii_of_string s)).

Definition rstrip (s : string) : string := reverse (lstrip (reverse s)).

(** [s.strip()] *)
Definition strip (s : string) : string := rstrip (lstrip s).

(** [s.replace(c, '')] for a one-character [c]. *)
Fixpoint remove (c : ascii) (s : string) : string :=
  match s with
  | EmptyString => EmptyString
  | String d s' => if Ascii.eqb d c then remove c s' else String d (remove c s')
  end.

Definition lower_ascii (c : ascii) : ascii :=
  let n := nat_of_ascii c in
  if (65 <=? n) && (n <=? 90) then ascii_of_nat (n + 32) else c.

(** [s.lower()] *)
Fixpoint lower (s : string) : string :=
  match s with
  | EmptyString => EmptyString
  | String c s' => String (lower_ascii c) (lower s')
  end.

(** [c * n] *)
Fixpoint times (c : string) (n : nat) : string :=
  match n with
  | O => EmptyString
  | S n' => (c ++ times c n')%string
  end.

(** The format spec [:<w]: left-justified in a field of width [w]. *)
Definition ljust (s : string) (w : nat) : string :=
  (s ++ times " " (w - String.length s))%string.

(** Truth value of a string: non-empty. *)
Definition truthy (s : string) : bool :=
  match s with
  | EmptyString => false
  | String _ _ => true
  end.

(** [repr] of a non-negative [int]. *)
Definition repr_nat (n : nat) : string :=
  NilEmpty.string_of_uint (Nat.to_uint n).

(** [repr] of a [str] without quotes inside. *)
Definition repr_str (s : string) : string :=
  String squote (s ++ String squote EmptyString)%string.

End PyStr.

(** ** Exceptions *)

Inductive exn : Type :=
| FileNotFoundError (msg : string)
| KeyError (key_repr : string)
| IndexError (msg : string)
| EOFError (msg : string)
| LibraryError (msg : string).

(** [str(e)], what [{e}] prints in an f-string. *)
Definition str_exn (e : exn) : string :=
  match e with
  | FileNotFoundError msg => msg
  | KeyError key_repr => key_repr
  | IndexError msg => msg
  | EOFError msg => msg
  | LibraryError msg => msg
  end.

(** ** The rational comparison [prob > threshold] *)

Definition Qgtb (x y : Q) : bool := negb (Qle_bool x y).

(** ** Floating point

    Rounding to a binary format with [p] significant bits, to nearest and ties
    to even, on values in the normal range of the format. *)

Module Float.

(** [2^k] *)
Definition pow2 (k : Z) : Q :=
  if (0 <=? k)%Z then inject_Z (2 ^ k) else (1 # Z.to_pos (2 ^ (- k)))%Q.

(** The integer nearest to [q], ties to even. *)
Definition rint (q : Q) : Z :=
  let n := Qnum q in
  let d := Z.pos (Qden q) in
  let f := (n / d)%Z in
  match (2 * (n mod d) ?= d)%Z with
  | Lt => f
  | Gt => (f + 1)%Z
  | Eq => if Z.even f then f else (f + 1)%Z
  end.

(** The exponent of a positive [q]: [2^e <= q < 2^(e+1)]. *)
Definition ilog2 (q : Q) : Z :=
  let e := (Z.log2 (Qnum q) - Z.log2 (Z.pos (Qden q)))%Z in
  if Qle_bool (pow2 e) q then e else (e - 1)%Z.

Definition round_pos (p : Z) (q : Q) : Q :=
  let ulp := pow2 (ilog2 q - (p - 1)) in
  (inject_Z (rint (q / ulp)) * ulp)%Q.

Definition round (p : Z) (q : Q) : Q :=
  match Qnum q with
  | Z0 => 0%Q
  | Zpos _ => round_pos p q
  | Zneg _ => (- round_pos p (- q))%Q
  end.

(** The double nearest to [q]: what a Python float literal holds. *)
Definition float64 (q : Q) : Q := round 53 q.

(** The single nearest to [q]. *)
Definition float32 (q : Q) : Q := round 24 q.

End Float.

(** [prob > threshold] for a NumPy single [prob] and a Python float written
    as the literal [threshold]: the Python float is converted to single
    precision and the two singles are compared. *)
Definition np_greater (prob threshold : Q) : bool :=
  Qgtb prob (Float.float32 (Float.float64 threshold)).

(** ** Generic dictionaries and lists *)

Fixpoint dict_get {K V : Type} (eqb : K -> K -> bool) (d : list (K * V)) (k : K)
  : option V :=
  match d with
  | [] => None
  | (k', v) :: d' => if eqb k' k then Some v else dict_get eqb d' k
  end.

Definition nonempty {A : Type} (l : list A) : bool :=
  match l with
  | [] => false
  | _ :: _ => true
  end.

(** ** Configuration: [METADATA] and [MODEL_PATH] *)

Definition thresholds : list (string * Q) :=
  [ ("Covid", 0.1241%Q);
    ("Normal", 0.1651%Q);
    ("Pneumonia", 0.2921%Q);
    ("Tuberculosis", 0.1766%Q);
    ("Tumor", 0.1009%Q) ].

Definition class_names : list (nat * string) :=
  [ (0, "Covid");
    (1, "Normal");
    (2, "Pneumonia");
    (3, "Tuberculosis");
    (4, "Tumor") ].

Definition MODEL_PATH : string := "final_lung_ai_v1.h5".

(** ** The messages of the final conclusion *)

Definition msg_healthy : string := "✅ FINAL DIAGNOSIS: Healthy Lungs".

Definition msg_inconclusive : string :=
  "❓ FINAL DIAGNOSIS: Inconclusive (Low confidence)".

Definition msg_signs (real_diseases : list string) : string :=
  ("🚨 FINAL DIAGNOSIS: Signs of " ++ String.concat ", " real_diseases)%string.

Definition status_detected : string := "⚠️ DETECTED".

Definition status_clear : string := "Clear".

(** Step 3 of [diagnose]: the line printed from the list of findings. *)
Definition conclusion (findings : list string) : string :=
  if existsb (String.eqb "Normal") findings && (length findings =? 1) then
    msg_healthy
  else if nonempty findings then
    let real_diseases := filter (fun f => negb (String.eqb f "Normal")) findings in
    if nonempty real_diseases then msg_signs real_diseases else msg_healthy
  else
    msg_inconclusive.

(** ** What the script delegates *)

Record Runtime : Type := {
  Model : Type;
  Image : Type;
  Tensor : Type;
  (** [os.path.exists], [os.path.basename] *)
  path_exists : string -> bool;
  basename : string -> string;
  (** [tf.keras.models.load_model] *)
  load_model : string -> exn + Model;
  (** [image.load_img(path, target_size=...)], [image.img_to_array] *)
  load_img : string -> nat * nat -> exn + Image;
  img_to_array : Image -> Tensor;
  (** [np.expand_dims(a, axis=...)] and the in-place [a /= c] *)
  expand_dims : Tensor -> nat -> Tensor;
  divide : Tensor -> Q -> Tensor;
  (** [model.predict(x, verbose=0)]: one row of scores per batch entry *)
  predict : Model -> Tensor -> exn + list (list Q);
  (** the format spec [:.1%] *)
  percent1 : Q -> string
}.

(** A small runtime to run the program on: the model file, [xray.png] and
    [broken.png] exist, a model is the path it was loaded from, an image and
    a tensor are the path of the picture, [broken.png] cannot be decoded, and
    inference scores both Covid and Normal at one half. *)

Definition demo_percent1 (q : Q) : string :=
  let permille := Z.to_nat ((2 * 1000 * Qnum q + QDen q) / (2 * QDen q)) in
  (PyStr.repr_nat (permille / 10) ++ "." ++ PyStr.repr_nat (permille mod 10)
     ++ "%")%string.

Definition demo_scores : list Q := [0.5%Q; 0.5%Q; 0%Q; 0%Q; 0%Q].

Definition demo : Runtime := {|
  Model := string;
  Image := string;
  Tensor := string;
  path_exists := fun p =>
    existsb (String.eqb p) [MODEL_PATH; "xray.png"; "broken.png"];
  basename := fun p => p;
  load_model := fun p => inr p;
  load_img := fun p _ =>
    if String.eqb p "broken.png"
    then inl (LibraryError "cannot identify image file 'broken.png'")
    else inr p;
  img_to_array := fun img => img;
  expand_dims := fun a _ => a;
  divide := fun a _ => a;
  predict := fun _ _ => inr [demo_scores];
  percent1 := demo_percent1
|}.

(** The demo runtime with other surroundings: the files that exist, what
    loading the model gives, what decoding a picture gives and what inference
    gives. *)
Definition demo_variant (files : list string) (loaded : exn + string)
  (decoded : exn + string) (scores : exn + list (list Q)) : Runtime := {|
  Model := string;
  Image := string;
  Tensor := string;
  path_exists := fun p => existsb (String.eqb p) files;
  basename := fun p => p;
  load_model := fun _ => loaded;
  load_img := fun _ _ => decoded;
  img_to_array := fun img => img;
  expand_dims := fun a _ => a;
  divide := fun a _ => a;
  predict := fun _ _ => scores;
  percent1 := demo_percent1
|}.

(** The model file is missing. *)
Definition demo_no_model : Runtime :=
  demo_variant ["xray.png"] (inr MODEL_PATH) (inr "xray.png")
    (inr [demo_scores]).

(** The model file exists and cannot be loaded. *)
Definition demo_bad_model : Runtime :=
  demo_variant [MODEL_PATH; "xray.png"] (inl (LibraryError "bad file"))
    (inr "xray.png") (inr [demo_scores]).

(** Inference runs out of memory. *)
Definition demo_bad_inference : Runtime :=
  demo_variant [MODEL_PATH; "xray.png"] (inr MODEL_PATH) (inr "xray.png")
    (inl (LibraryError "out of memory")).

(** Inference gives three scores only. *)
Definition demo_three_scores : Runtime :=
  demo_variant [MODEL_PATH; "xray.png"] (inr MODEL_PATH) (inr "xray.png")
    (inr [[0.5%Q; 0.5%Q; 0%Q]]).

(** ** Characters of a string *)

(** [c in s] for a one-character [c]. *)
Fixpoint has_char (c : ascii) (s : string) : bool :=
  match s with
  | EmptyString => false
  | String d s' => Ascii.eqb d c || has_char c s'
  end.

(** Every character of [s] is whitespace. *)
Fixpoint all_space (s : string) : bool :=
  match s with
  | EmptyString => true
  | String c s' => PyStr.is_space c && all_space s'
  end.

(** ** The decision table, class by class

    The classes in index order, each with its cutoff. *)

Definition class_table : list (string * Q) :=
  [ ("Covid", 0.1241%Q);
    ("Normal", 0.1651%Q);
    ("Pneumonia", 0.2921%Q);
    ("Tuberculosis", 0.1766%Q);
    ("Tumor", 0.1009%Q) ].

(** The table as the report uses it: the class, its cutoff as written, and
    the single-precision number nearest to that cutoff, which is what a score
    is compared with. *)
Definition report_table : list (string * Q * Q) :=
  [ ("Covid", 0.1241%Q, (4164105 # 33554432)%Q);
    ("Normal", 0.1651%Q, (11079673 # 67108864)%Q);
    ("Pneumonia", 0.2921%Q, (4900625 # 16777216)%Q);
    ("Tuberculosis", 0.1766%Q, (11851425 # 67108864)%Q);
    ("Tumor", 0.1009%Q, (13542569 # 134217728)%Q) ].

(** The single-precision number nearest to 0.2921: a score the model can
    give, and strictly above 0.2921. *)
Definition single_0_2921 : Q := (4900625 # 16777216)%Q.

(** A class paired with the score the model gave it. *)
Definition verdict : Type := ((string * Q) * Q)%type.

Definition v_name (v : verdict) : string := fst (fst v).

Definition v_cutoff (v : verdict) : Q := snd (fst v).

Definition v_prob (v : verdict) : Q := snd v.

Definition exceeds (v : verdict) : bool := np_greater (v_prob v) (v_cutoff v).

Definition is_disease (name : string) : bool := negb (String.eqb name "Normal").

(** The classes of [tbl] whose score exceeds their cutoff, in table order. *)
Definition detected_in (tbl : list (string * Q)) (predictions : list Q)
  : list string :=
  map v_name (filter exceeds (combine tbl predictions)).

Definition detected (predictions : list Q) : list string :=
  detected_in class_table predictions.

Definition detected_diseases (predictions : list Q) : list string :=
  filter is_disease (detected predictions).

(** [s] is [l] with some elements left out, the order kept. *)
Inductive subsequence {A : Type} : list A -> list A -> Prop :=
| sub_nil : forall l, subsequence [] l
| sub_skip : forall s x l, subsequence s l -> subsequence s (x :: l)
| sub_take : forall s x l, subsequence s l -> subsequence (x :: s) (x :: l).

Section Program.

Variable R : Runtime.

(** ** Events and the effect monad *)

Inductive event : Type :=
| Print (s : string)
| Input (prompt : string) (line : option string)
| LoadModel (path : string)
| LoadImg (path : string)
| Predict (m : Model R) (x : Tensor R)
| Raised (e : exn).

Definition M (A : Type) : Type := (list event * (exn + A))%type.

Definition ret {A : Type} (a : A) : M A := ([], inr a).

Definition bind {A B : Type} (m : M A) (f : A -> M B) : M B :=
  match m with
  | (t, inl e) => (t, inl e)
  | (t, inr a) => let r := f a in (t ++ fst r, snd r)
  end.

Definition emit (ev : event) : M unit := ([ev], inr tt).

(** [raise e] *)
Definition throw {A : Type} (e : exn) : M A := ([Raised e], inl e).

Definition print (s : string) : M unit := emit (Print s).

(** A call into the runtime that may raise. *)
Definition call {A : Type} (ev : event) (r : exn + A) : M A :=
  bind (emit ev) (fun _ => match r with inl e => throw e | inr a => ret a end).

(** [try: m  except Exception as e: h e] *)
Definition try_except {A : Type} (m : M A) (h : exn -> M A) : M A :=
  match m with
  | (t, inl e) => let r := h e in (t ++ fst r, snd r)
  | (t, inr a) => (t, inr a)
  end.

Definition events {A : Type} (m : M A) : list event := fst m.

Definition outcome {A : Type} (m : M A) : exn + A := snd m.

Notation "x <- c ;; k" := (bind c (fun x => k))
  (at level 61, c at next level, right associativity).

Notation "c ;; k" := (bind c (fun _ => k))
  (at level 61, right associativity).

(** [d[k]], raising [KeyError] on a missing key. *)
Definition getitem {K V : Type} (eqb : K -> K -> bool) (repr : K -> string)
  (d : list (K * V)) (k : K) : M V :=
  match dict_get eqb d k with
  | Some v => ret v
  | None => throw (KeyError (repr k))
  end.

(** [a[0]] on the batch of score rows. *)
Definition first_row (batch : list (list Q)) : M (list Q) :=
  match batch with
  | row :: _ => ret row
  | [] => throw (IndexError "index 0 is out of bounds for axis 0 with size 0")
  end.

(** ** [class LungDoctor] *)

Record LungDoctor : Type := { model : Model R }.

(** [LungDoctor.__init__] *)
Definition LungDoctor_init : M LungDoctor :=
  print "Loading AI Brain... (DenseNet121)" ;;
  (if negb (path_exists R MODEL_PATH) then
     throw (FileNotFoundError
              ("❌ Model file '" ++ MODEL_PATH ++ "' not found!")%string)
   else ret tt) ;;
  m <- call (LoadModel MODEL_PATH) (load_model R MODEL_PATH) ;;
  print "✅ AI System Online." ;;
  ret {| model := m |}.

(** [LungDoctor.preprocess_image] *)
Definition preprocess_image (self : LungDoctor) (img_path : string)
  : M (Tensor R) :=
  img <- call (LoadImg img_path) (load_img R img_path (224, 224)) ;;
  let img_array := img_to_array R img in
  let img_array := expand_dims R img_array 0 in
  let img_array := divide R img_array 255%Q in
  ret img_array.

(** The report row of one class. *)
Definition row (name : string) (prob threshold : Q) (status : string)
  : string :=
  (PyStr.ljust name 15 ++ ": " ++ percent1 R prob ++ " (Cutoff: "
     ++ percent1 R threshold ++ ") -> " ++ status)%string.

(** The loop [for idx, prob in enumerate(predictions)] of [diagnose], from
    index [idx] on, with the findings collected so far. *)
Fixpoint scan_classes (idx : nat) (predictions : list Q)
  (findings : list string) : M (list string) :=
  match predictions with
  | [] => ret findings
  | prob :: rest =>
      name <- getitem Nat.eqb PyStr.repr_nat class_names idx ;;
      threshold <- getitem String.eqb PyStr.repr_str thresholds name ;;
      let is_detected := np_greater prob threshold in
      let status := if is_detected then status_detected else status_clear in
      let findings := if is_detected then findings ++ [name] else findings in
      print (row name prob threshold status) ;;
      scan_classes (S idx) rest findings
  end.

(** Steps 2 and 3 of [diagnose]: the report for a vector of scores. *)
Definition apply_safety_rules (predictions : list Q) : M unit :=
  print (PyStr.nl ++ "--- DETAILED REPORT ---")%string ;;
  findings <- scan_classes 0 predictions [] ;;
  print (PyStr.times "-" 30) ;;
  print (conclusion findings).

(** [LungDoctor.diagnose] *)
Definition diagnose (self : LungDoctor) (img_path : string) : M unit :=
  if negb (path_exists R img_path) then
    print ("❌ Error: File '" ++ img_path ++ "' not found.")%string
  else
    print (PyStr.nl ++ "🔎 Analyzing Patient: " ++ basename R img_path
             ++ "...")%string ;;
    processed_img <- preprocess_image self img_path ;;
    batch <- call (Predict (model self) processed_img)
               (predict R (model self) processed_img) ;;
    predictions <- first_row batch ;;
    apply_safety_rules predictions.

(** The rows the report has for the classes of [tbl]. *)
Definition rows_in (tbl : list (string * Q)) (predictions : list Q)
  : list string :=
  map (fun v => row (v_name v) (v_prob v) (v_cutoff v)
                  (if exceeds v then status_detected else status_clear))
    (combine tbl predictions).

Definition report_rows (predictions : list Q) : list string :=
  rows_in class_table predictions.

Definition report_header : string :=
  (PyStr.nl ++ "--- DETAILED REPORT ---")%string.

Definition report_rule : string := PyStr.times "-" 30.

(** Everything [diagnose] prints from the header on, given the final line. *)
Definition report (predictions : list Q) (final : string) : list event :=
  Print report_header :: map Print (report_rows predictions)
    ++ [Print report_rule; Print final].

(** ** The main program *)

Definition prompt : string :=
  (PyStr.nl ++ "Drag & Drop X-ray file here (or type 'exit'): ")%string.

(** [input(prompt)] on the remaining lines of standard input. *)
Definition input (stdin : list string) : M string :=
  match stdin with
  | line :: _ => emit (Input prompt (Some line)) ;; ret line
  | [] => emit (Input prompt None) ;; throw (EOFError "EOF when reading a line")
  end.

(** [.strip()], then both kinds of quote characters replaced by nothing. *)
Definition clean (line : string) : string :=
  PyStr.remove PyStr.squote (PyStr.remove PyStr.dquote (PyStr.strip line)).

(** [path.lower() in ['exit', 'quit']] *)
Definition is_exit (path : string) : bool :=
  existsb (String.eqb (PyStr.lower path)) ["exit"; "quit"].

(** One pass through the body of the [while True] loop; the result tells
    whether the loop goes on ([false] after [break]). *)
Definition loop_body (doctor : LungDoctor) (stdin : list string) : M bool :=
  line <- input stdin ;;
  let path := clean line in
  if is_exit path then ret false
  else
    (if PyStr.truthy path then diagnose doctor path else ret tt) ;;
    ret true.

(** The [while True] loop; every iteration consumes one line. *)
Fixpoint command_loop (doctor : LungDoctor) (stdin : list string) : M unit :=
  continue <- loop_body doctor stdin ;;
  if continue then
    match stdin with
    | [] => ret tt
    | _ :: rest => command_loop doctor rest
    end
  else ret tt.

(** The body of the [try] block. *)
Definition session (stdin : list string) : M unit :=
  doctor <- LungDoctor_init ;;
  command_loop doctor stdin.

Definition critical (e : exn) : string :=
  (PyStr.nl ++ "❌ Critical Error: " ++ str_exn e)%string.

(** The [__main__] block. *)
Definition main (stdin : list string) : M unit :=
  try_except (session stdin) (fun e => print (critical e)).

(** ** Vocabulary for the statements *)

Definition msg_loading : string := "Loading AI Brain... (DenseNet121)".

Definition msg_online : string := "✅ AI System Online.".

Definition msg_not_found (img_path : string) : string :=
  ("❌ Error: File '" ++ img_path ++ "' not found.")%string.

Definition msg_analyzing (img_path : string) : string :=
  (PyStr.nl ++ "🔎 Analyzing Patient: " ++ basename R img_path ++ "...")%string.

(** The tensor [preprocess_image] makes of a loaded picture. *)
Definition preprocessed (img : Image R) : Tensor R :=
  divide R (expand_dims R (img_to_array R img) 0) 255%Q.

Definition status_of (prob cutoff : Q) : string :=
  if np_greater prob cutoff then status_detected else status_clear.

(** The events of one loop iteration that runs the whole pipeline on the
    picture [img] and the scores [predictions]: the path is read, the
    picture preprocessed, inference called on the result, the rules applied to
    its output, the report printed. *)
Definition pipeline_trace (doctor : LungDoctor) (line : string)
  (img : Image R) (predictions : list Q) : list event :=
  [ Input prompt (Some line);
    Print (msg_analyzing (clean line));
    LoadImg (clean line);
    Predict (model doctor) (preprocessed img) ]
  ++ report predictions (conclusion (detected predictions)).

(** The iteration that reads [line] goes through the whole pipeline. *)
Definition sequential_iteration (doctor : LungDoctor) (line : string)
  (rest : list string) : Prop :=
  exists (img : Image R) (predictions : list Q),
    events (loop_body doctor (line :: rest))
    = pipeline_trace doctor line img predictions.

(** The tie-break as the specification names it: with Normal and a disease
    both detected, the report ends on the healthy line. *)
Definition normal_overrides_disease (predictions : list Q) : Prop :=
  In "Normal" (detected predictions) ->
  detected_diseases predictions <> [] ->
  apply_safety_rules predictions = (report predictions msg_healthy, inr tt).

Definition is_load (ev : event) : bool :=
  match ev with
  | LoadModel _ => true
  | _ => false
  end.

Definition is_raised (ev : event) : bool :=
  match ev with
  | Raised _ => true
  | _ => false
  end.

(** How often the model is loaded along a trace. *)
Definition loads (t : list event) : nat := length (filter is_load t).

(** What an iteration of the loop may do with the model: never load one,
    and run inference on the doctor's model only. *)
Definition uses_only (doctor : LungDoctor) (ev : event) : Prop :=
  match ev with
  | LoadModel _ => False
  | Predict m _ => m = model doctor
  | _ => True
  end.

(** The row of the report for a class of [report_table] and its score. *)
Definition row_text (c : string * Q * Q) (prob : Q) : string :=
  (PyStr.ljust (fst (fst c)) 15 ++ ": " ++ percent1 R prob ++ " (Cutoff: "
     ++ percent1 R (snd (fst c)) ++ ") -> "
     ++ (if Qlt_le_dec (snd c) prob then "⚠️ DETECTED" else "Clear"))%string.

(** The rows for a vector of scores: one per score, in class order. *)
Definition row_texts (predictions : list Q) : list string :=
  map (fun cp => row_text (fst cp) (snd cp)) (combine report_table predictions).

(** Detection as the specification words it: the class at [idx] is among
    the findings exactly when its score exceeds the cutoff as written. *)
Definition marks_by_decimal_cutoff (predictions : list Q) (idx : nat) : Prop :=
  forall (prob : Q) (name : string) (cutoff : Q),
    nth_error predictions idx = Some prob ->
    nth_error class_table idx = Some (name, cutoff) ->
    exists rows findings,
      scan_classes 0 predictions [] = (map Print rows, inr findings)
      /\ (In name findings <-> (cutoff < prob)%Q).

(** The report as the specification words it: five rows between the header
    and the rule, whatever inference returned. *)
Definition five_row_report (doctor : LungDoctor) (img_path : string) : Prop :=
  exists (x : Tensor R) (r0 r1 r2 r3 r4 final : string),
    events (diagnose doctor img_path)
    = [ Print (msg_analyzing img_path); LoadImg img_path;
        Predict (model doctor) x; Print report_header;
        Print r0; Print r1; Print r2; Print r3; Print r4;
        Print report_rule; Print final ].

(** ** The program at a keyboard that can interrupt

    [Ctrl-C] at the prompt makes [input()] raise [KeyboardInterrupt], which
    is a [BaseException] and no [Exception]. *)

Inductive key : Type :=
| Line (s : string)
| CtrlC.

Inductive thrown : Type :=
| Exc (e : exn)
| KeyboardInterrupt.

Definition MK (A : Type) : Type := (list event * (thrown + A))%type.

Definition liftK {A : Type} (m : M A) : MK A :=
  (fst m, match snd m with inl e => inl (Exc e) | inr a => inr a end).

Definition retK {A : Type} (a : A) : MK A := ([], inr a).

Definition bindK {A B : Type} (m : MK A) (f : A -> MK B) : MK B :=
  match m with
  | (t, inl b) => (t, inl b)
  | (t, inr a) => let r := f a in (t ++ fst r, snd r)
  end.

(** [input(prompt)] at the keyboard. *)
Definition input_key (keyboard : list key) : MK string :=
  match keyboard with
  | Line s :: _ => liftK (input [s])
  | CtrlC :: _ => ([Input prompt None], inl KeyboardInterrupt)
  | [] => liftK (input [])
  end.

(** The [while True] loop at the keyboard. *)
Fixpoint command_loop_key (doctor : LungDoctor) (keyboard : list key)
  : MK unit :=
  bindK (input_key keyboard) (fun line =>
    let path := clean line in
    if is_exit path then retK tt
    else
      bindK (liftK (if PyStr.truthy path then diagnose doctor path else ret tt))
        (fun _ =>
           match keyboard with
           | [] => retK tt
           | _ :: rest => command_loop_key doctor rest
           end)).

(** The body of the [try] block at the keyboard. *)
Definition session_key (keyboard : list key) : MK unit :=
  bindK (liftK LungDoctor_init) (fun doctor => command_loop_key doctor keyboard).

(** The [__main__] block at the keyboard: [except Exception] catches the
    instances of [Exception] and lets [KeyboardInterrupt] through. *)
Definition main_key (keyboard : list key) : MK unit :=
  match session_key keyboard with
  | (t, inl (Exc e)) => (t ++ events (print (critical e)), inr tt)
  | (t, inl KeyboardInterrupt) => (t, inl KeyboardInterrupt)
  | (t, inr a) => (t, inr a)
  end.

(** The handler as the specification words it: whatever exception leaves the
    session, the run ends normally on a critical-error message. *)
Definition handled_by_top_level (keyboard : list key) : Prop :=
  forall b : thrown,
    snd (session_key keyboard) = inl b ->
    exists t msg,
      main_key keyboard
      = (t ++ [Print (PyStr.nl ++ "❌ Critical Error: " ++ msg)%string], inr tt).

(** The lines a trace shows as read from standard input, in order. *)
Definition lines_read (t : list event) : list string :=
  flat_map (fun ev => match ev with
                      | Input _ (Some line) => [line]
                      | _ => []
                      end) t.

(** What [diagnose] may do on [img_path]: read no line, load no model, decode
    only that file and only if it exists, and run inference only on the
    preprocessed picture of that file. *)
Definition diagnose_event (img_path : string) (ev : event) : Prop :=
  match ev with
  | Input _ _ => False
  | LoadModel _ => False
  | LoadImg p => p = img_path /\ path_exists R img_path = true
  | Predict _ x =>
      path_exists R img_path = true
      /\ exists img, load_img R img_path (224, 224) = inr img
                     /\ x = preprocessed img
  | Print _ => True
  | Raised _ => True
  end.

(** What a run may do on the lines [stdin]: whatever it decodes or runs
    inference on comes from a line of [stdin], cleaned, that is not empty and
    is no exit command. *)
Definition loop_event (stdin : list string) (ev : event) : Prop :=
  match ev with
  | LoadImg _ | Predict _ _ =>
      exists line,
        In line stdin
        /\ PyStr.truthy (clean line) = true
        /\ is_exit (clean line) = false
        /\ diagnose_event (clean line) ev
  | _ => True
  end.

(** No exception is recorded along the trace. *)
Definition quiet (t : list event) : bool :=
  forallb (fun ev => negb (is_raised ev)) t.

(** A computation without handler: no exception is recorded when it returns,
    and when it raises, the exception it raises is the last event and the
    only one recorded. *)
Definition unhandled {A : Type} (m : M A) : Prop :=
  match outcome m with
  | inr _ => quiet (events m) = true
  | inl e => exists t, events m = t ++ [Raised e] /\ quiet t = true
  end.

(** ** Laws of the effect monad *)

Lemma bind_ret {A B : Type} (a : A) (f : A -> M B) : bind (ret a) f = f a.
Proof. unfold bind, ret. simpl. destruct (f a); reflexivity. Qed.

Lemma bind_value {A B : Type} (t : list event) (a : A) (f : A -> M B) :
  bind (t, inr a) f = (t ++ fst (f a), snd (f a)).
Proof. reflexivity. Qed.

Lemma bind_raise {A B : Type} (t : list event) (e : exn) (f : A -> M B) :
  bind (t, inl e) f = (t, inl e).
Proof. reflexivity. Qed.

Lemma bind_print {B : Type} (s : string) (f : unit -> M B) :
  bind (print s) f = (Print s :: fst (f tt), snd (f tt)).
Proof. reflexivity. Qed.

(** ** Facts on the comparison and on the table *)

Lemma Qgtb_lt (x y : Q) : Qgtb x y = true <-> (y < x)%Q.
Proof.
  unfold Qgtb. rewrite negb_true_iff. split.
  - intros H. apply Qnot_le_lt. intros Hle.
    apply Qle_bool_iff in Hle. congruence.
  - intros H. destruct (Qle_bool x y) eqn:E; [|reflexivity].
    apply Qle_bool_iff in E. exfalso. exact (Qlt_not_le _ _ H E).
Qed.

Lemma Qgtb_not_lt (x y : Q) : Qgtb x y = false <-> ~ (y < x)%Q.
Proof.
  rewrite <- Qgtb_lt. destruct (Qgtb x y); split; congruence.
Qed.

(** The two dictionaries of [METADATA], read one after the other, are the
    table: index to name, name to cutoff. *)
Lemma metadata_lookup (idx : nat) (name : string) (cutoff : Q) :
  nth_error class_table idx = Some (name, cutoff) ->
  dict_get Nat.eqb class_names idx = Some name /\
  dict_get String.eqb thresholds name = Some cutoff.
Proof.
  do 5 (destruct idx as [|idx];
        [intros H; injection H as <- <-; split; reflexivity|]).
  destruct idx; discriminate.
Qed.

Lemma class_table_skipn (idx : nat) :
  idx < 5 ->
  exists name cutoff,
    nth_error class_table idx = Some (name, cutoff) /\
    skipn idx class_table = (name, cutoff) :: skipn (S idx) class_table.
Proof.
  intros H.
  do 5 (destruct idx as [|idx];
        [eexists; eexists; split; reflexivity|]).
  lia.
Qed.

Lemma class_index_unique (i j : nat) (name : string) (c d : Q) :
  nth_error class_table i = Some (name, c) ->
  nth_error class_table j = Some (name, d) ->
  i = j.
Proof.
  intros Hi Hj.
  do 5 (destruct i as [|i]; [
    do 5 (destruct j as [|j];
          [simpl in *; first [reflexivity | congruence] |]);
    destruct j; discriminate Hj |]).
  destruct i; discriminate Hi.
Qed.

(** ** The class loop computes the table's verdicts *)

Lemma scan_classes_table (predictions : list Q) :
  forall (idx : nat) (findings : list string),
    idx + length predictions <= 5 ->
    scan_classes idx predictions findings
    = (map Print (rows_in (skipn idx class_table) predictions),
       inr (findings ++ detected_in (skipn idx class_table) predictions)).
Proof.
  induction predictions as [|prob rest IH]; intros idx findings Hlen.
  - unfold rows_in, detected_in. rewrite combine_nil. simpl.
    rewrite app_nil_r. reflexivity.
  - simpl in Hlen.
    destruct (class_table_skipn idx) as (name & cutoff & Hnth & Hskip);
      [lia|].
    destruct (metadata_lookup idx name cutoff Hnth) as [Hname Hcut].
    rewrite Hskip. cbn [scan_classes]. unfold getitem.
    rewrite Hname, bind_ret, Hcut, bind_ret, bind_print.
    rewrite IH by lia. cbn [fst snd].
    unfold rows_in, detected_in. cbn [combine map filter].
    change (exceeds (name, cutoff, prob)) with (np_greater prob cutoff).
    destruct (np_greater prob cutoff); simpl.
    + rewrite <- app_assoc. reflexivity.
    + reflexivity.
Qed.

Lemma scan_classes_ok (predictions : list Q) :
  length predictions <= 5 ->
  scan_classes 0 predictions []
  = (map Print (report_rows predictions), inr (detected predictions)).
Proof.
  intros Hlen. rewrite scan_classes_table by (simpl; lia). reflexivity.
Qed.

Lemma apply_safety_rules_ok (predictions : list Q) :
  length predictions <= 5 ->
  apply_safety_rules predictions
  = (report predictions (conclusion (detected predictions)), inr tt).
Proof.
  intros Hlen. unfold apply_safety_rules.
  rewrite scan_classes_ok by assumption.
  unfold report. simpl. reflexivity.
Qed.

Lemma report_final_inj (predictions : list Q) (final final' : string) :
  report predictions final = report predictions final' -> final = final'.
Proof.
  unfold report. intros H. injection H as H.
  apply app_inv_head in H. congruence.
Qed.

(** ** The final conclusion, branch by branch *)

Lemma conclusion_nil : conclusion [] = msg_inconclusive.
Proof. reflexivity. Qed.

Lemma conclusion_lone_normal : conclusion ["Normal"] = msg_healthy.
Proof. reflexivity. Qed.

Lemma nonempty_true {A : Type} (l : list A) : l <> [] -> nonempty l = true.
Proof. destruct l; [congruence | reflexivity]. Qed.

Lemma conclusion_diseases (findings : list string) :
  filter is_disease findings <> [] ->
  conclusion findings = msg_signs (filter is_disease findings).
Proof.
  intros Hreal. unfold conclusion.
  destruct (existsb (String.eqb "Normal") findings
            && (length findings =? 1)) eqn:Hlone.
  - exfalso. apply andb_true_iff in Hlone as [Hin Hone].
    apply Nat.eqb_eq in Hone.
    destruct findings as [|f [|g findings]]; try discriminate Hone.
    cbn [existsb] in Hin. rewrite orb_false_r in Hin.
    apply String.eqb_eq in Hin. subst f. apply Hreal. reflexivity.
  - rewrite (nonempty_true findings)
      by (intros ->; apply Hreal; reflexivity).
    change (filter (fun f => negb (String.eqb f "Normal")) findings)
      with (filter is_disease findings).
    cbv zeta. rewrite (nonempty_true _ Hreal). reflexivity.
Qed.

Lemma msg_signs_not_healthy (l : list string) : msg_signs l <> msg_healthy.
Proof. unfold msg_signs, msg_healthy. simpl. discriminate. Qed.

Lemma msg_signs_not_inconclusive (l : list string) :
  msg_signs l <> msg_inconclusive.
Proof. unfold msg_signs, msg_inconclusive. simpl. discriminate. Qed.

Lemma msg_inconclusive_not_healthy : msg_inconclusive <> msg_healthy.
Proof. discriminate. Qed.

(** ** Which names are detected *)

Lemma In_detected_in (tbl : list (string * Q)) :
  forall (predictions : list Q) (name : string),
    In name (detected_in tbl predictions) <->
    exists idx cutoff prob,
      nth_error tbl idx = Some (name, cutoff) /\
      nth_error predictions idx = Some prob /\
      np_greater prob cutoff = true.
Proof.
  induction tbl as [|[n c] tbl IH]; intros predictions name.
  - split; [intros []|]. intros (idx & ? & ? & H & _).
    destruct idx; discriminate H.
  - destruct predictions as [|p predictions].
    + split; [intros []|]. intros (idx & ? & ? & _ & H & _).
      destruct idx; discriminate H.
    + unfold detected_in. cbn [combine filter].
      change (exceeds (n, c, p)) with (np_greater p c).
      fold (detected_in tbl predictions) in *.
      split.
      * intros H.
        assert (Hcases : (np_greater p c = true /\ n = name)
                         \/ In name (detected_in tbl predictions)).
        { destruct (np_greater p c); [destruct H as [H|H]|]; auto. }
        destruct Hcases as [[Hgt ->]|Hin].
        -- exists 0, c, p. auto.
        -- apply IH in Hin as (idx & cutoff & prob & H1 & H2 & H3).
           exists (S idx), cutoff, prob. auto.
      * intros (idx & cutoff & prob & H1 & H2 & H3).
        destruct idx as [|idx].
        -- injection H1 as -> ->. injection H2 as ->.
           rewrite H3. left. reflexivity.
        -- assert (Hin : In name (detected_in tbl predictions))
             by (apply IH; exists idx, cutoff, prob; auto).
           destruct (np_greater p c); [right|]; exact Hin.
Qed.

Lemma subsequence_filter {A : Type} (f : A -> bool) (s l : list A) :
  subsequence s l -> subsequence (filter f s) (filter f l).
Proof.
  induction 1 as [l|s x l _ IH|s x l _ IH]; simpl.
  - constructor.
  - destruct (f x); [constructor|]; exact IH.
  - destruct (f x); [constructor|]; exact IH.
Qed.

Lemma detected_in_subsequence (tbl : list (string * Q)) :
  forall predictions : list Q,
    subsequence (detected_in tbl predictions) (map fst tbl).
Proof.
  induction tbl as [|[n c] tbl IH]; intros predictions.
  - constructor.
  - destruct predictions as [|p predictions]; [constructor|].
    unfold detected_in. cbn [combine filter map fst].
    destruct (exceeds (n, c, p)).
    + apply sub_take. apply IH.
    + apply sub_skip. apply IH.
Qed.

(** ** The decision rules *)

(** C1, as the code has it: for every prediction vector in which both
    "Normal" and at least one disease class exceed their cutoffs, the final
    diagnosis line names the detected diseases and is not the healthy line:
    a detected disease overrides a detected Normal. *)
Theorem disease_overrides_normal (predictions : list Q) :
  length predictions <= 5 ->
  In "Normal" (detected predictions) ->
  detected_diseases predictions <> [] ->
  apply_safety_rules predictions
  = (report predictions (msg_signs (detected_diseases predictions)), inr tt)
  /\ msg_signs (detected_diseases predictions) <> msg_healthy.
Proof.
  intros Hlen _ Hdis. split.
  - rewrite apply_safety_rules_ok by assumption.
    unfold detected_diseases in *.
    rewrite conclusion_diseases by assumption. reflexivity.
  - apply msg_signs_not_healthy.
Qed.

(** C2: for every prediction vector in which at least one non-Normal class
    exceeds its cutoff, the final diagnosis line reports exactly the detected
    non-Normal class names, joined by a comma and a blank, whether or not
    "Normal" was detected too. *)
Theorem diseases_reported (predictions : list Q) :
  length predictions <= 5 ->
  detected_diseases predictions <> [] ->
  apply_safety_rules predictions
  = (report predictions
       ("🚨 FINAL DIAGNOSIS: Signs of "
          ++ String.concat ", " (detected_diseases predictions))%string,
     inr tt)
  /\ (forall name : string,
        In name (detected_diseases predictions) <->
        In name (detected predictions) /\ name <> "Normal").
Proof.
  intros Hlen Hdis. split.
  - rewrite apply_safety_rules_ok by assumption.
    unfold detected_diseases in *.
    rewrite conclusion_diseases by assumption. reflexivity.
  - intros name. unfold detected_diseases, is_disease.
    rewrite filter_In, negb_true_iff, String.eqb_neq. reflexivity.
Qed.

(** C3: for every prediction vector in which "Normal" is the only class
    exceeding its cutoff (the findings are ["Normal"]), the final diagnosis
    line reports healthy lungs. *)
Theorem lone_normal_healthy (predictions : list Q) :
  length predictions <= 5 ->
  detected predictions = ["Normal"] ->
  apply_safety_rules predictions
  = (report predictions "✅ FINAL DIAGNOSIS: Healthy Lungs", inr tt).
Proof.
  intros Hlen Hlone.
  rewrite apply_safety_rules_ok by assumption.
  rewrite Hlone, conclusion_lone_normal. reflexivity.
Qed.

(** ** Events and outcome of composed computations *)

Lemma events_bind {A B : Type} (m : M A) (f : A -> M B) :
  events (bind m f)
  = match outcome m with
    | inl _ => events m
    | inr a => events m ++ events (f a)
    end.
Proof. destruct m as [t [e|a]]; reflexivity. Qed.

Lemma outcome_bind {A B : Type} (m : M A) (f : A -> M B) :
  outcome (bind m f)
  = match outcome m with
    | inl e => inl e
    | inr a => outcome (f a)
    end.
Proof. destruct m as [t [e|a]]; reflexivity. Qed.

Lemma events_try_except {A : Type} (m : M A) (h : exn -> M A) :
  events (try_except m h)
  = match outcome m with
    | inl e => events m ++ events (h e)
    | inr _ => events m
    end.
Proof. destruct m as [t [e|a]]; reflexivity. Qed.

Lemma Forall_bind {A B : Type} (P : event -> Prop) (m : M A) (f : A -> M B) :
  Forall P (events m) ->
  (forall a, outcome m = inr a -> Forall P (events (f a))) ->
  Forall P (events (bind m f)).
Proof.
  intros Hm Hf. rewrite events_bind.
  destruct (outcome m) as [e|a] eqn:Ho; [exact Hm|].
  apply Forall_app. split; [exact Hm | apply Hf; reflexivity].
Qed.

Lemma Forall_call {A : Type} (P : event -> Prop) (ev : event) (r : exn + A) :
  P ev -> (forall e, P (Raised e)) -> Forall P (events (call ev r)).
Proof.
  intros Hev Hraise. destruct r as [e|a]; simpl; auto.
Qed.

(** ** Computations without handler *)

Lemma unhandled_ret {A : Type} (a : A) : unhandled (ret a).
Proof. reflexivity. Qed.

Lemma unhandled_throw {A : Type} (e : exn) : unhandled (@throw A e).
Proof. exists []. split; reflexivity. Qed.

Lemma quiet_app (t t' : list event) : quiet (t ++ t') = quiet t && quiet t'.
Proof. apply forallb_app. Qed.

Lemma unhandled_emit (ev : event) : is_raised ev = false -> unhandled (emit ev).
Proof. intros H. unfold unhandled, quiet. simpl. rewrite H. reflexivity. Qed.

Lemma unhandled_print (s : string) : unhandled (print s).
Proof. reflexivity. Qed.

Lemma unhandled_bind {A B : Type} (m : M A) (f : A -> M B) :
  unhandled m -> (forall a, unhandled (f a)) -> unhandled (bind m f).
Proof.
  intros Hm Hf. unfold unhandled in *.
  rewrite outcome_bind, events_bind.
  destruct (outcome m) as [e|a]; [exact Hm|].
  specialize (Hf a). destruct (outcome (f a)) as [e|b].
  - destruct Hf as (t & -> & Ht). exists (events m ++ t).
    rewrite app_assoc, quiet_app, Hm, Ht. split; reflexivity.
  - rewrite quiet_app, Hm, Hf. reflexivity.
Qed.

Lemma unhandled_call {A : Type} (ev : event) (r : exn + A) :
  is_raised ev = false -> unhandled (call ev r).
Proof.
  intros H. apply unhandled_bind; [apply unhandled_emit; exact H|].
  intros _. destruct r; [apply unhandled_throw | apply unhandled_ret].
Qed.

(** The one recorded exception of a trace is where it is. *)
Lemma raised_unique (t rest pre post : list event) (e e' : exn) :
  quiet t = true -> quiet rest = true ->
  t ++ Raised e' :: rest = pre ++ Raised e :: post ->
  pre = t /\ e = e' /\ post = rest.
Proof.
  revert pre. induction t as [|a t IH]; intros pre Ht Hrest Heq.
  - destruct pre as [|b pre]; simpl in Heq.
    + injection Heq as -> ->. auto.
    + injection Heq as _ ->. rewrite quiet_app in Hrest.
      simpl in Hrest. rewrite andb_false_r in Hrest. discriminate.
  - unfold quiet in Ht. simpl in Ht. apply andb_true_iff in Ht as [Ha Ht].
    destruct pre as [|b pre]; simpl in Heq.
    + injection Heq as -> _. discriminate Ha.
    + injection Heq as -> Heq.
      destruct (IH pre Ht Hrest Heq) as (-> & -> & ->). auto.
Qed.

Lemma quiet_no_raised (t pre post : list event) (e : exn) :
  quiet t = true -> t <> pre ++ Raised e :: post.
Proof.
  intros Ht ->. rewrite quiet_app in Ht. simpl in Ht.
  rewrite andb_false_r in Ht. discriminate.
Qed.

(** ** No part of the session handles an exception *)

Ltac unhandled_leaf :=
  first
    [ apply unhandled_ret
    | apply unhandled_throw
    | apply unhandled_print
    | apply unhandled_call; reflexivity
    | apply unhandled_emit; reflexivity ].

Lemma unhandled_getitem {K V : Type} (eqb : K -> K -> bool)
  (repr : K -> string) (d : list (K * V)) (k : K) :
  unhandled (getitem eqb repr d k).
Proof. unfold getitem. destruct (dict_get eqb d k); unhandled_leaf. Qed.

Lemma unhandled_scan_classes (predictions : list Q) :
  forall (idx : nat) (findings : list string),
    unhandled (scan_classes idx predictions findings).
Proof.
  induction predictions as [|prob rest IH]; intros idx findings;
    cbn [scan_classes]; [unhandled_leaf|].
  apply unhandled_bind; [apply unhandled_getitem | intros name].
  apply unhandled_bind; [apply unhandled_getitem | intros threshold].
  apply unhandled_bind; [unhandled_leaf | intros _; apply IH].
Qed.

Lemma unhandled_apply_safety_rules (predictions : list Q) :
  unhandled (apply_safety_rules predictions).
Proof.
  unfold apply_safety_rules.
  apply unhandled_bind; [unhandled_leaf | intros _].
  apply unhandled_bind; [apply unhandled_scan_classes | intros findings].
  apply unhandled_bind; [unhandled_leaf | intros _; unhandled_leaf].
Qed.

Lemma unhandled_preprocess_image (self : LungDoctor) (img_path : string) :
  unhandled (preprocess_image self img_path).
Proof.
  unfold preprocess_image.
  apply unhandled_bind; [unhandled_leaf | intros img; unhandled_leaf].
Qed.

Lemma unhandled_diagnose (doctor : LungDoctor) (img_path : string) :
  unhandled (diagnose doctor img_path).
Proof.
  unfold diagnose.
  destruct (negb (path_exists R img_path)); [unhandled_leaf|].
  apply unhandled_bind; [unhandled_leaf | intros _].
  apply unhandled_bind; [apply unhandled_preprocess_image | intros x].
  apply unhandled_bind; [unhandled_leaf | intros batch].
  apply unhandled_bind; [|intros; apply unhandled_apply_safety_rules].
  destruct batch; unhandled_leaf.
Qed.

Lemma unhandled_input (stdin : list string) : unhandled (input stdin).
Proof.
  destruct stdin; unfold input;
    (apply unhandled_bind; [unhandled_leaf | intros _; unhandled_leaf]).
Qed.

Lemma unhandled_loop_body (doctor : LungDoctor) (stdin : list string) :
  unhandled (loop_body doctor stdin).
Proof.
  unfold loop_body.
  apply unhandled_bind; [apply unhandled_input | intros line].
  destruct (is_exit (clean line)); [unhandled_leaf|].
  apply unhandled_bind; [|intros _; unhandled_leaf].
  destruct (PyStr.truthy (clean line));
    [apply unhandled_diagnose | unhandled_leaf].
Qed.

Lemma unhandled_command_loop (doctor : LungDoctor) (stdin : list string) :
  unhandled (command_loop doctor stdin).
Proof.
  induction stdin as [|line rest IH]; cbn [command_loop];
    (apply unhandled_bind; [apply unhandled_loop_body | intros continue]);
    destruct continue; first [unhandled_leaf | exact IH].
Qed.

Lemma unhandled_init : unhandled LungDoctor_init.
Proof.
  unfold LungDoctor_init.
  apply unhandled_bind; [unhandled_leaf | intros _].
  apply unhandled_bind;
    [destruct (negb (path_exists R MODEL_PATH)); unhandled_leaf | intros _].
  apply unhandled_bind; [unhandled_leaf | intros m].
  apply unhandled_bind; [unhandled_leaf | intros _; unhandled_leaf].
Qed.

Lemma unhandled_session (stdin : list string) : unhandled (session stdin).
Proof.
  unfold session. apply unhandled_bind;
    [apply unhandled_init | intros doctor; apply unhandled_command_loop].
Qed.

(** ** The loop leaves the model alone *)

Ltac uses_only_leaf :=
  first
    [ apply Forall_nil
    | apply Forall_call; [exact I || reflexivity | intros ?; exact I]
    | apply Forall_cons; [exact I || reflexivity | apply Forall_nil] ].

Lemma getitem_uses_only {K V : Type} (doctor : LungDoctor)
  (eqb : K -> K -> bool) (repr : K -> string) (d : list (K * V)) (k : K) :
  Forall (uses_only doctor) (events (getitem eqb repr d k)).
Proof. unfold getitem. destruct (dict_get eqb d k); uses_only_leaf. Qed.

Lemma scan_classes_uses_only (doctor : LungDoctor) (predictions : list Q) :
  forall (idx : nat) (findings : list string),
    Forall (uses_only doctor) (events (scan_classes idx predictions findings)).
Proof.
  induction predictions as [|prob rest IH]; intros idx findings;
    cbn [scan_classes]; [uses_only_leaf|].
  apply Forall_bind; [apply getitem_uses_only | intros name _].
  apply Forall_bind; [apply getitem_uses_only | intros threshold _].
  apply Forall_bind; [uses_only_leaf | intros _ _; apply IH].
Qed.

Lemma apply_safety_rules_uses_only (doctor : LungDoctor)
  (predictions : list Q) :
  Forall (uses_only doctor) (events (apply_safety_rules predictions)).
Proof.
  unfold apply_safety_rules.
  apply Forall_bind; [uses_only_leaf | intros _ _].
  apply Forall_bind; [apply scan_classes_uses_only | intros findings _].
  apply Forall_bind; [uses_only_leaf | intros _ _; uses_only_leaf].
Qed.

Lemma diagnose_uses_only (doctor : LungDoctor) (img_path : string) :
  Forall (uses_only doctor) (events (diagnose doctor img_path)).
Proof.
  unfold diagnose.
  destruct (negb (path_exists R img_path)); [uses_only_leaf|].
  apply Forall_bind; [uses_only_leaf | intros _ _].
  apply Forall_bind; [|intros x _].
  { unfold preprocess_image.
    apply Forall_bind; [uses_only_leaf | intros img _; uses_only_leaf]. }
  apply Forall_bind; [uses_only_leaf | intros batch _].
  apply Forall_bind;
    [|intros predictions _; apply apply_safety_rules_uses_only].
  destruct batch; uses_only_leaf.
Qed.

Lemma loop_body_uses_only (doctor : LungDoctor) (stdin : list string) :
  Forall (uses_only doctor) (events (loop_body doctor stdin)).
Proof.
  unfold loop_body.
  apply Forall_bind; [|intros line _].
  { destruct stdin; unfold input;
      (apply Forall_bind; [uses_only_leaf | intros _ _; uses_only_leaf]). }
  destruct (is_exit (clean line)); [uses_only_leaf|].
  apply Forall_bind; [|intros _ _; uses_only_leaf].
  destruct (PyStr.truthy (clean line));
    [apply diagnose_uses_only | uses_only_leaf].
Qed.

Lemma command_loop_uses_only (doctor : LungDoctor) (stdin : list string) :
  Forall (uses_only doctor) (events (command_loop doctor stdin)).
Proof.
  induction stdin as [|line rest IH]; cbn [command_loop];
    (apply Forall_bind; [apply loop_body_uses_only | intros continue _]);
    destruct continue; first [uses_only_leaf | exact IH].
Qed.

Lemma uses_only_loads (doctor : LungDoctor) (t : list event) :
  Forall (uses_only doctor) t -> loads t = 0.
Proof.
  induction 1 as [|ev t Hev _ IH]; [reflexivity|].
  unfold loads in *. simpl. destruct ev; simpl in *; tauto.
Qed.

(** ** A diagnosis that goes through *)

Lemma call_value {A : Type} (ev : event) (a : A) :
  call ev (inr a) = ([ev], inr a).
Proof. reflexivity. Qed.

Lemma call_raise {A : Type} (ev : event) (e : exn) :
  @call A ev (inl e) = ([ev; Raised e], inl e).
Proof. reflexivity. Qed.

Lemma diagnose_ok (doctor : LungDoctor) (img_path : string)
  (img : Image R) (predictions : list Q) (more : list (list Q)) :
  path_exists R img_path = true ->
  load_img R img_path (224, 224) = inr img ->
  predict R (model doctor) (preprocessed img) = inr (predictions :: more) ->
  length predictions <= 5 ->
  diagnose doctor img_path
  = (Print (msg_analyzing img_path) :: LoadImg img_path
       :: Predict (model doctor) (preprocessed img)
       :: report predictions (conclusion (detected predictions)),
     inr tt).
Proof.
  intros Hex Hload Hpred Hlen. unfold diagnose, preprocess_image.
  rewrite Hex. cbn [negb]. rewrite bind_print.
  rewrite Hload, call_value, bind_value. cbn [fst snd ret app].
  fold (preprocessed img). rewrite bind_value.
  rewrite Hpred, call_value, bind_value.
  cbn [first_row]. rewrite bind_ret.
  rewrite apply_safety_rules_ok by assumption. reflexivity.
Qed.

Lemma diagnose_missing (doctor : LungDoctor) (img_path : string) :
  path_exists R img_path = false ->
  diagnose doctor img_path = ([Print (msg_not_found img_path)], inr tt).
Proof. intros Hex. unfold diagnose. rewrite Hex. reflexivity. Qed.

Lemma loop_body_diagnose (doctor : LungDoctor) (line : string)
  (rest : list string) :
  is_exit (clean line) = false ->
  PyStr.truthy (clean line) = true ->
  loop_body doctor (line :: rest)
  = (Input prompt (Some line) :: events (diagnose doctor (clean line)),
     match outcome (diagnose doctor (clean line)) with
     | inl e => inl e
     | inr _ => inr true
     end).
Proof.
  intros Hexit Htruthy. unfold loop_body.
  change (input (line :: rest))
    with (([Input prompt (Some line)], inr line) : M string).
  rewrite bind_value. cbv zeta. rewrite Hexit, Htruthy.
  destruct (diagnose doctor (clean line)) as [t [e|[]]]; cbn.
  - reflexivity.
  - rewrite app_nil_r. reflexivity.
Qed.

Lemma conclusion_cases (findings : list string) :
  conclusion findings = msg_healthy
  \/ conclusion findings = msg_inconclusive
  \/ exists names, conclusion findings = msg_signs names.
Proof.
  unfold conclusion.
  destruct (existsb (String.eqb "Normal") findings && (length findings =? 1));
    [auto|].
  destruct (nonempty findings); [|auto].
  cbv zeta.
  destruct (nonempty (filter (fun f => negb (String.eqb f "Normal")) findings));
    eauto.
Qed.

Lemma command_loop_cons (doctor : LungDoctor) (line : string)
  (rest : list string) :
  command_loop doctor (line :: rest)
  = bind (loop_body doctor (line :: rest))
      (fun continue => if continue then command_loop doctor rest else ret tt).
Proof. reflexivity. Qed.

(** ** The shapes of a whole run *)

Lemma init_cases :
  (exists e, LungDoctor_init = ([Print msg_loading; Raised e], inl e))
  \/ (exists e, LungDoctor_init
                = ([Print msg_loading; LoadModel MODEL_PATH; Raised e], inl e))
  \/ (exists m, load_model R MODEL_PATH = inr m
                /\ LungDoctor_init
                   = ([Print msg_loading; LoadModel MODEL_PATH;
                       Print msg_online], inr {| model := m |})).
Proof.
  unfold LungDoctor_init. rewrite bind_print.
  destruct (path_exists R MODEL_PATH); cbn [negb].
  - rewrite bind_ret.
    destruct (load_model R MODEL_PATH) as [e|m].
    + right. left. exists e. reflexivity.
    + right. right. exists m. split; reflexivity.
  - left. eexists. reflexivity.
Qed.

Lemma main_cases (stdin : list string) :
  (exists e, events (main stdin)
             = [Print msg_loading; Raised e; Print (critical e)])
  \/ (exists e, events (main stdin)
                = [Print msg_loading; LoadModel MODEL_PATH; Raised e;
                   Print (critical e)])
  \/ (exists m rest,
        load_model R MODEL_PATH = inr m
        /\ events (main stdin)
           = Print msg_loading :: LoadModel MODEL_PATH :: Print msg_online
               :: rest
        /\ Forall (uses_only {| model := m |}) rest).
Proof.
  unfold main, session.
  destruct init_cases as [[e H]|[[e H]|(m & Hm & H)]]; rewrite H.
  - left. exists e. reflexivity.
  - right. left. exists e. reflexivity.
  - right. right. rewrite bind_value, events_try_except.
    cbn [outcome events fst snd].
    pose proof (command_loop_uses_only {| model := m |} stdin) as Hloop.
    destruct (outcome (command_loop {| model := m |} stdin)) as [e|[]] eqn:Ho;
      unfold outcome in Ho; rewrite Ho.
    + exists m, (events (command_loop {| model := m |} stdin)
                  ++ [Print (critical e)]).
      split; [exact Hm|]. split; [reflexivity|].
      apply Forall_app. split; [exact Hloop|].
      apply Forall_cons; [exact I | apply Forall_nil].
    + exists m, (events (command_loop {| model := m |} stdin)).
      split; [exact Hm|]. split; [reflexivity | exact Hloop].
Qed.

(** ** The report, the loop and the handler *)

(** C7, as the code has it: every loop iteration for a non-empty, non-exit
    path that names an existing file whose picture loads and on which
    inference returns a vector of at most five scores does, in this order
    and nothing else: read the path, preprocess the picture, call inference
    on the preprocessed tensor, apply the cutoffs to the inference output,
    print the report; then the loop goes on. *)
Theorem iteration_runs_pipeline (doctor : LungDoctor) (line : string)
  (rest : list string) (img : Image R) (predictions : list Q)
  (more : list (list Q)) :
  is_exit (clean line) = false ->
  PyStr.truthy (clean line) = true ->
  path_exists R (clean line) = true ->
  load_img R (clean line) (224, 224) = inr img ->
  predict R (model doctor) (preprocessed img) = inr (predictions :: more) ->
  length predictions <= 5 ->
  loop_body doctor (line :: rest)
  = (pipeline_trace doctor line img predictions, inr true)
  /\ sequential_iteration doctor line rest.
Proof.
  intros Hexit Htruthy Hex Hload Hpred Hlen.
  assert (Hbody : loop_body doctor (line :: rest)
                  = (pipeline_trace doctor line img predictions, inr true)).
  { rewrite loop_body_diagnose by assumption.
    rewrite (diagnose_ok doctor _ img predictions more Hex Hload Hpred Hlen).
    reflexivity. }
  split; [exact Hbody|].
  exists img, predictions. rewrite Hbody. reflexivity.
Qed.

(** C9: for every path given to [diagnose] that does not name an existing
    file, [diagnose] prints the file-not-found error and returns, without
    preprocessing, without inference and without a report or a diagnosis
    line; and in the loop, the iteration on such a path is the read and that
    one message, after which the loop carries on with the same doctor and
    the next line. *)
Theorem missing_file_skipped (doctor : LungDoctor) (img_path : string) :
  path_exists R img_path = false ->
  diagnose doctor img_path
  = ([Print ("❌ Error: File '" ++ img_path ++ "' not found.")%string], inr tt)
  /\ (forall (line : string) (rest : list string),
        clean line = img_path ->
        is_exit img_path = false ->
        PyStr.truthy img_path = true ->
        command_loop doctor (line :: rest)
        = (Input prompt (Some line) :: Print (msg_not_found img_path)
             :: events (command_loop doctor rest),
           outcome (command_loop doctor rest))).
Proof.
  intros Hex. split; [apply diagnose_missing; exact Hex|].
  intros line rest <- Hexit Htruthy.
  rewrite command_loop_cons, loop_body_diagnose by assumption.
  rewrite (diagnose_missing doctor _ Hex). reflexivity.
Qed.

(** ** Cleaning the line that was typed *)

Lemma append_empty_r (s : string) : (s ++ "")%string = s.
Proof.
  induction s as [|c s IH]; simpl; [reflexivity | rewrite IH; reflexivity].
Qed.

Lemma append_assoc3 (s1 s2 s3 : string) :
  ((s1 ++ s2) ++ s3)%string = (s1 ++ (s2 ++ s3))%string.
Proof.
  induction s1 as [|c s1 IH]; simpl; [reflexivity | rewrite IH; reflexivity].
Qed.

Lemma list_of_append (s1 s2 : string) :
  list_ascii_of_string (s1 ++ s2)
  = list_ascii_of_string s1 ++ list_ascii_of_string s2.
Proof.
  induction s1 as [|c s1 IH]; simpl; [reflexivity | rewrite IH; reflexivity].
Qed.

Lemma string_of_app (l1 l2 : list ascii) :
  string_of_list_ascii (l1 ++ l2)
  = (string_of_list_ascii l1 ++ string_of_list_ascii l2)%string.
Proof.
  induction l1 as [|c l1 IH]; simpl; [reflexivity | rewrite IH; reflexivity].
Qed.

Lemma reverse_append (s1 s2 : string) :
  PyStr.reverse (s1 ++ s2) = (PyStr.reverse s2 ++ PyStr.reverse s1)%string.
Proof.
  unfold PyStr.reverse.
  rewrite list_of_append, rev_app_distr, string_of_app. reflexivity.
Qed.

Lemma reverse_involutive (s : string) : PyStr.reverse (PyStr.reverse s) = s.
Proof.
  unfold PyStr.reverse.
  rewrite list_ascii_of_string_of_list_ascii, rev_involutive.
  apply string_of_list_ascii_of_string.
Qed.

Lemma reverse_cons (c : ascii) (s : string) :
  PyStr.reverse (String c s) = (PyStr.reverse s ++ String c "")%string.
Proof. exact (reverse_append (String c "") s). Qed.

Lemma all_space_append (p q : string) :
  all_space (p ++ q) = all_space p && all_space q.
Proof.
  induction p as [|c p IH]; simpl; [reflexivity|].
  rewrite IH, andb_assoc. reflexivity.
Qed.

Lemma all_space_reverse (p : string) : all_space (PyStr.reverse p) = all_space p.
Proof.
  induction p as [|c p IH]; [reflexivity|].
  rewrite reverse_cons, all_space_append, IH. simpl.
  rewrite andb_true_r. apply andb_comm.
Qed.

Lemma lstrip_pad (p s : string) :
  all_space p = true -> PyStr.lstrip (p ++ s) = PyStr.lstrip s.
Proof.
  induction p as [|c p IH]; simpl; [reflexivity|].
  intros H. apply andb_true_iff in H as [Hc Hp]. rewrite Hc. exact (IH Hp).
Qed.

Lemma lstrip_head (c : ascii) (s : string) :
  PyStr.is_space c = false -> PyStr.lstrip (String c s) = String c s.
Proof. intros H. simpl. rewrite H. reflexivity. Qed.

Lemma rstrip_pad (s p : string) :
  all_space p = true -> PyStr.rstrip (s ++ p) = PyStr.rstrip s.
Proof.
  intros H. unfold PyStr.rstrip.
  rewrite reverse_append, lstrip_pad by (rewrite all_space_reverse; exact H).
  reflexivity.
Qed.

Lemma rstrip_last (s : string) (c : ascii) :
  PyStr.is_space c = false ->
  PyStr.rstrip (s ++ String c "") = (s ++ String c "")%string.
Proof.
  intros H. unfold PyStr.rstrip. rewrite reverse_append.
  change (PyStr.reverse (String c "") ++ PyStr.reverse s)%string
    with (String c (PyStr.reverse s)).
  rewrite lstrip_head by exact H.
  rewrite reverse_cons, reverse_involutive. reflexivity.
Qed.

Lemma strip_padded (p1 p2 s : string) (a b : ascii) :
  all_space p1 = true -> all_space p2 = true ->
  PyStr.is_space a = false -> PyStr.is_space b = false ->
  PyStr.strip (p1 ++ String a (s ++ String b "") ++ p2)
  = String a (s ++ String b "").
Proof.
  intros H1 H2 Ha Hb. unfold PyStr.strip.
  rewrite lstrip_pad by exact H1.
  change (String a (s ++ String b "") ++ p2)%string
    with (String a ((s ++ String b "") ++ p2)).
  rewrite lstrip_head by exact Ha.
  change (String a ((s ++ String b "") ++ p2))
    with (String a (s ++ String b "") ++ p2)%string.
  rewrite rstrip_pad by exact H2.
  exact (rstrip_last (String a s) b Hb).
Qed.

Lemma strip_blank (p : string) : all_space p = true -> PyStr.strip p = "".
Proof.
  intros H. unfold PyStr.strip.
  rewrite <- (append_empty_r p), lstrip_pad by exact H. reflexivity.
Qed.

Lemma remove_append (c : ascii) (s1 s2 : string) :
  PyStr.remove c (s1 ++ s2)
  = (PyStr.remove c s1 ++ PyStr.remove c s2)%string.
Proof.
  induction s1 as [|d s1 IH]; simpl; [reflexivity|].
  rewrite IH. destruct (Ascii.eqb d c); reflexivity.
Qed.

Lemma remove_absent (c : ascii) (s : string) :
  has_char c s = false -> PyStr.remove c s = s.
Proof.
  induction s as [|d s IH]; simpl; [reflexivity|].
  intros H. apply orb_false_iff in H as [Hd Hs].
  rewrite Hd, (IH Hs). reflexivity.
Qed.

Lemma has_char_remove (c : ascii) (s : string) :
  has_char c (PyStr.remove c s) = false.
Proof.
  induction s as [|d s IH]; simpl; [reflexivity|].
  destruct (Ascii.eqb d c) eqn:E; [exact IH|].
  simpl. rewrite E, IH. reflexivity.
Qed.

Lemma has_char_remove_other (c d : ascii) (s : string) :
  has_char c s = false -> has_char c (PyStr.remove d s) = false.
Proof.
  induction s as [|a s IH]; simpl; [reflexivity|].
  intros H. apply orb_false_iff in H as [Ha Hs].
  destruct (Ascii.eqb a d); [exact (IH Hs)|].
  simpl. rewrite Ha, (IH Hs). reflexivity.
Qed.

(** X1: whatever was typed, the cleaned path holds neither a single nor a
    double quote character. *)
Theorem clean_no_quotes (line : string) :
  has_char PyStr.squote (clean line) = false
  /\ has_char PyStr.dquote (clean line) = false.
Proof.
  unfold clean. split.
  - apply has_char_remove.
  - apply has_char_remove_other, has_char_remove.
Qed.

(** X2: a path wrapped in a pair of single or of double quotes, with any
    whitespace around the quotes, is cleaned to exactly what is between the
    quotes, whitespace inside included, as long as that holds no quote
    character itself. *)
Theorem clean_unquotes (q : ascii) (p1 p2 s : string) :
  q = PyStr.squote \/ q = PyStr.dquote ->
  all_space p1 = true ->
  all_space p2 = true ->
  has_char PyStr.squote s = false ->
  has_char PyStr.dquote s = false ->
  clean (p1 ++ String q (s ++ String q "") ++ p2) = s.
Proof.
  intros Hq H1 H2 Hs Hd. unfold clean.
  rewrite strip_padded by (try assumption; destruct Hq; subst q; reflexivity).
  change (String q (s ++ String q ""))
    with (String q "" ++ (s ++ String q ""))%string.
  rewrite !remove_append.
  rewrite (remove_absent PyStr.dquote s Hd), (remove_absent PyStr.squote s Hs).
  destruct Hq; subst q; simpl; apply append_empty_r.
Qed.

Lemma clean_blank (line : string) :
  all_space line = true -> clean line = "".
Proof.
  intros H. unfold clean. rewrite strip_blank by exact H. reflexivity.
Qed.

(** ** The loop, line by line *)

Lemma command_loop_step (doctor : LungDoctor) (line : string)
  (rest : list string) :
  command_loop doctor (line :: rest)
  = if is_exit (clean line) then ([Input prompt (Some line)], inr tt)
    else
      let m := if PyStr.truthy (clean line)
               then diagnose doctor (clean line) else ret tt in
      match outcome m with
      | inl e => (Input prompt (Some line) :: events m, inl e)
      | inr _ =>
          (Input prompt (Some line) :: events m
             ++ events (command_loop doctor rest),
           outcome (command_loop doctor rest))
      end.
Proof.
  rewrite command_loop_cons. unfold loop_body.
  change (input (line :: rest))
    with (([Input prompt (Some line)], inr line) : M string).
  rewrite bind_value. cbv zeta.
  destruct (is_exit (clean line)); [reflexivity|].
  destruct (if PyStr.truthy (clean line)
            then diagnose doctor (clean line) else ret tt) as [t [e|[]]];
    cbn; [reflexivity|].
  rewrite app_nil_r. destruct (command_loop doctor rest). reflexivity.
Qed.

Lemma command_loop_nil (doctor : LungDoctor) :
  command_loop doctor []
  = ([Input prompt None; Raised (EOFError "EOF when reading a line")],
     inl (EOFError "EOF when reading a line")).
Proof. reflexivity. Qed.

(** X3: a line that cleans to [exit] or [quit], in any letter case, ends the
    loop at once and normally: nothing is diagnosed and the lines after it are
    never read. *)
Theorem exit_ends_loop (doctor : LungDoctor) (line : string)
  (rest : list string) :
  is_exit (clean line) = true ->
  command_loop doctor (line :: rest) = ([Input prompt (Some line)], inr tt).
Proof. intros H. rewrite command_loop_step, H. reflexivity. Qed.

(** X4: a line that cleans to the empty path (blank, or nothing but quote
    characters) is ignored: the iteration is the read alone, [diagnose] is
    not called, and the loop goes on with the next line. *)
Theorem blank_line_ignored (doctor : LungDoctor) (line : string)
  (rest : list string) :
  clean line = "" ->
  command_loop doctor (line :: rest)
  = (Input prompt (Some line) :: events (command_loop doctor rest),
     outcome (command_loop doctor rest)).
Proof. intros H. rewrite command_loop_step, H. reflexivity. Qed.

Lemma diagnose_load_fails (doctor : LungDoctor) (img_path : string) (e : exn) :
  path_exists R img_path = true ->
  load_img R img_path (224, 224) = inl e ->
  diagnose doctor img_path
  = ([Print (msg_analyzing img_path); LoadImg img_path; Raised e], inl e).
Proof.
  intros Hex Hload. unfold diagnose, preprocess_image.
  rewrite Hex. cbn [negb]. rewrite bind_print, Hload, call_raise.
  reflexivity.
Qed.

Lemma diagnose_predict_fails (doctor : LungDoctor) (img_path : string)
  (img : Image R) (e : exn) :
  path_exists R img_path = true ->
  load_img R img_path (224, 224) = inr img ->
  predict R (model doctor) (preprocessed img) = inl e ->
  diagnose doctor img_path
  = ([Print (msg_analyzing img_path); LoadImg img_path;
      Predict (model doctor) (preprocessed img); Raised e], inl e).
Proof.
  intros Hex Hload Hpred. unfold diagnose, preprocess_image.
  rewrite Hex. cbn [negb]. rewrite bind_print.
  rewrite Hload, call_value, bind_value. cbn [fst snd ret app].
  fold (preprocessed img). rewrite bind_value.
  rewrite Hpred, call_raise. reflexivity.
Qed.

(** X5: a picture that exists but cannot be decoded ends the loop: after the
    analyzing line and the attempt to load, the exception leaves the loop;
    inference is not called, no report is printed and the lines after it are
    never read. *)
Theorem picture_failure_ends_loop (doctor : LungDoctor) (line : string)
  (rest : list string) (e : exn) :
  is_exit (clean line) = false ->
  PyStr.truthy (clean line) = true ->
  path_exists R (clean line) = true ->
  load_img R (clean line) (224, 224) = inl e ->
  command_loop doctor (line :: rest)
  = ([ Input prompt (Some line);
       Print (msg_analyzing (clean line));
       LoadImg (clean line);
       Raised e ],
     inl e).
Proof.
  intros Hexit Htruthy Hex Hload.
  rewrite command_loop_step, Hexit, Htruthy.
  cbv zeta. rewrite (diagnose_load_fails doctor _ e Hex Hload). reflexivity.
Qed.

(** X6: when inference raises, the loop ends the same way: the exception
    leaves the loop right after the call, no report is printed and the lines
    after it are never read. *)
Theorem inference_failure_ends_loop (doctor : LungDoctor) (line : string)
  (rest : list string) (img : Image R) (e : exn) :
  is_exit (clean line) = false ->
  PyStr.truthy (clean line) = true ->
  path_exists R (clean line) = true ->
  load_img R (clean line) (224, 224) = inr img ->
  predict R (model doctor) (preprocessed img) = inl e ->
  command_loop doctor (line :: rest)
  = ([ Input prompt (Some line);
       Print (msg_analyzing (clean line));
       LoadImg (clean line);
       Predict (model doctor) (preprocessed img);
       Raised e ],
     inl e).
Proof.
  intros Hexit Htruthy Hex Hload Hpred.
  rewrite command_loop_step, Hexit, Htruthy.
  cbv zeta.
  rewrite (diagnose_predict_fails doctor _ img e Hex Hload Hpred).
  reflexivity.
Qed.

(** ** What a run touches *)

Lemma getitem_prints {K V : Type} (P : event -> Prop)
  (eqb : K -> K -> bool) (repr : K -> string) (d : list (K * V)) (k : K) :
  (forall e, P (Raised e)) -> Forall P (events (getitem eqb repr d k)).
Proof.
  intros Hr. unfold getitem. destruct (dict_get eqb d k); simpl; auto.
Qed.

Lemma scan_classes_prints (P : event -> Prop) (predictions : list Q) :
  (forall s, P (Print s)) -> (forall e, P (Raised e)) ->
  forall (idx : nat) (findings : list string),
    Forall P (events (scan_classes idx predictions findings)).
Proof.
  intros Hp Hr.
  induction predictions as [|prob rest IH]; intros idx findings;
    cbn [scan_classes]; [apply Forall_nil|].
  apply Forall_bind; [apply getitem_prints, Hr | intros name _].
  apply Forall_bind; [apply getitem_prints, Hr | intros threshold _].
  apply Forall_bind; [simpl; auto | intros _ _; apply IH].
Qed.

Lemma apply_safety_rules_prints (P : event -> Prop) (predictions : list Q) :
  (forall s, P (Print s)) -> (forall e, P (Raised e)) ->
  Forall P (events (apply_safety_rules predictions)).
Proof.
  intros Hp Hr. unfold apply_safety_rules.
  apply Forall_bind; [simpl; auto | intros _ _].
  apply Forall_bind; [apply scan_classes_prints; assumption | intros f _].
  apply Forall_bind; [simpl; auto | intros _ _; simpl; auto].
Qed.

Lemma preprocess_image_value (self : LungDoctor) (img_path : string)
  (x : Tensor R) :
  outcome (preprocess_image self img_path) = inr x ->
  exists img, load_img R img_path (224, 224) = inr img /\ x = preprocessed img.
Proof.
  unfold preprocess_image.
  destruct (load_img R img_path (224, 224)) as [e|img].
  - rewrite call_raise. discriminate.
  - rewrite call_value, bind_value. cbn. intros H. injection H as <-.
    exists img. split; reflexivity.
Qed.

Lemma diagnose_events (doctor : LungDoctor) (img_path : string) :
  Forall (diagnose_event img_path) (events (diagnose doctor img_path)).
Proof.
  unfold diagnose.
  destruct (path_exists R img_path) eqn:Hex; cbn [negb];
    [|apply Forall_cons; [exact I | apply Forall_nil]].
  apply Forall_bind;
    [apply Forall_cons; [exact I | apply Forall_nil] | intros _ _].
  apply Forall_bind; [|intros x Hx].
  { unfold preprocess_image.
    apply Forall_bind; [|intros img _; apply Forall_nil].
    apply Forall_call; [split; [reflexivity | exact Hex] | intros e; exact I]. }
  apply preprocess_image_value in Hx.
  apply Forall_bind; [|intros batch _].
  { apply Forall_call; [split; [exact Hex | exact Hx] | intros e; exact I]. }
  apply Forall_bind;
    [|intros predictions _; apply apply_safety_rules_prints; intros; exact I].
  destruct batch; simpl; repeat constructor.
Qed.

Lemma lines_read_app (t t' : list event) :
  lines_read (t ++ t') = lines_read t ++ lines_read t'.
Proof. apply flat_map_app. Qed.

Lemma lines_read_diagnose (doctor : LungDoctor) (img_path : string) :
  lines_read (events (diagnose doctor img_path)) = [].
Proof.
  pose proof (diagnose_events doctor img_path) as H.
  induction H as [|ev t Hev _ IH]; [reflexivity|].
  destruct ev; simpl in *; solve [exact IH | contradiction].
Qed.

Lemma loop_event_cons (line : string) (stdin : list string) (ev : event) :
  loop_event stdin ev -> loop_event (line :: stdin) ev.
Proof.
  destruct ev; simpl; auto;
    intros (l & Hin & H); exists l; (split; [right; exact Hin | exact H]).
Qed.

Lemma diagnose_loop_event (line : string) (stdin : list string) (ev : event) :
  PyStr.truthy (clean line) = true ->
  is_exit (clean line) = false ->
  diagnose_event (clean line) ev -> loop_event (line :: stdin) ev.
Proof.
  intros Ht He H. destruct ev; simpl; auto;
    exists line; (split; [left; reflexivity | auto]).
Qed.

Lemma command_loop_events (doctor : LungDoctor) (stdin : list string) :
  Forall (loop_event stdin) (events (command_loop doctor stdin)).
Proof.
  induction stdin as [|line rest IH].
  - rewrite command_loop_nil. repeat constructor.
  - rewrite command_loop_step.
    destruct (is_exit (clean line)) eqn:Hexit; [repeat constructor|].
    assert (Hm : Forall (loop_event (line :: rest))
                   (events (if PyStr.truthy (clean line)
                            then diagnose doctor (clean line) else ret tt))).
    { destruct (PyStr.truthy (clean line)) eqn:Htruthy; [|apply Forall_nil].
      eapply Forall_impl; [|apply diagnose_events].
      intros ev. apply diagnose_loop_event; assumption. }
    cbv zeta.
    destruct (outcome (if PyStr.truthy (clean line)
                       then diagnose doctor (clean line) else ret tt));
      cbn [events fst].
    + apply Forall_cons; [exact I | exact Hm].
    + apply Forall_cons; [exact I|]. apply Forall_app. split; [exact Hm|].
      eapply Forall_impl; [|exact IH]. intros ev. apply loop_event_cons.
Qed.

Lemma main_events (stdin : list string) :
  (exists e, events (main stdin)
             = [Print msg_loading; Raised e; Print (critical e)])
  \/ (exists e, events (main stdin)
                = [Print msg_loading; LoadModel MODEL_PATH; Raised e;
                   Print (critical e)])
  \/ (exists m,
        load_model R MODEL_PATH = inr m
        /\ events (main stdin)
           = [Print msg_loading; LoadModel MODEL_PATH; Print msg_online]
               ++ events (command_loop {| model := m |} stdin)
               ++ match outcome (command_loop {| model := m |} stdin) with
                  | inl e => [Print (critical e)]
                  | inr _ => []
                  end).
Proof.
  unfold main, session.
  destruct init_cases as [[e H]|[[e H]|(m & Hm & H)]]; rewrite H.
  - left. exists e. reflexivity.
  - right. left. exists e. reflexivity.
  - right. right. exists m. split; [exact Hm|].
    rewrite bind_value, events_try_except. cbn [outcome events fst snd].
    destruct (command_loop {| model := m |} stdin) as [t [e|[]]];
      cbn [fst snd].
    + rewrite <- app_assoc. reflexivity.
    + rewrite app_nil_r. reflexivity.
Qed.

(** X7: in every run, whatever is decoded comes from a line of standard input
    that, once cleaned, is not empty, is no exit command and names an existing
    file; and whatever inference is called on is the preprocessed picture
    decoded from such a file. *)
Theorem only_typed_existing_files (stdin : list string) :
  (forall p,
      In (LoadImg p) (events (main stdin)) ->
      exists line,
        In line stdin /\ p = clean line
        /\ PyStr.truthy p = true /\ is_exit p = false
        /\ path_exists R p = true)
  /\ (forall m x,
        In (Predict m x) (events (main stdin)) ->
        exists line img,
          In line stdin
          /\ PyStr.truthy (clean line) = true /\ is_exit (clean line) = false
          /\ path_exists R (clean line) = true
          /\ load_img R (clean line) (224, 224) = inr img
          /\ x = preprocessed img).
Proof.
  assert (Hall : Forall (loop_event stdin) (events (main stdin))).
  { destruct (main_events stdin) as [[e H]|[[e H]|(m & _ & H)]]; rewrite H.
    - repeat (apply Forall_cons; [exact I|]); apply Forall_nil.
    - repeat (apply Forall_cons; [exact I|]); apply Forall_nil.
    - apply Forall_app. split; [repeat (apply Forall_cons; [exact I|]); apply Forall_nil|].
      apply Forall_app. split; [apply command_loop_events|].
      destruct (outcome (command_loop {| model := m |} stdin));
        repeat (apply Forall_cons; [exact I|]); apply Forall_nil. }
  rewrite Forall_forall in Hall. split.
  - intros p Hin. destruct (Hall _ Hin) as (line & Hl & Ht & He & -> & Hex).
    exists line. repeat split; first [assumption | reflexivity].
  - intros m x Hin.
    destruct (Hall _ Hin) as (line & Hl & Ht & He & Hex & img & Himg & ->).
    exists line, img. repeat split; first [assumption | reflexivity].
Qed.

(** X8: in every run the lines read are an initial segment of standard input:
    they are read in order, each once, and none is skipped. *)
Theorem lines_read_in_order (stdin : list string) :
  exists k, lines_read (events (main stdin)) = firstn k stdin.
Proof.
  assert (Hloop : forall doctor,
             exists k, lines_read (events (command_loop doctor stdin))
                       = firstn k stdin).
  { intros doctor. induction stdin as [|line rest IH].
    - exists 0. reflexivity.
    - rewrite command_loop_step.
      destruct (is_exit (clean line)); [exists 1; reflexivity|].
      assert (Hm : lines_read
                     (events (if PyStr.truthy (clean line)
                              then diagnose doctor (clean line) else ret tt))
                   = []).
      { destruct (PyStr.truthy (clean line));
          [apply lines_read_diagnose | reflexivity]. }
      cbv zeta.
      destruct (outcome (if PyStr.truthy (clean line)
                         then diagnose doctor (clean line) else ret tt));
        cbn [events fst].
      + exists 1. cbn [lines_read flat_map app]. fold (lines_read).
        change (flat_map _ ?t) with (lines_read t).
        rewrite Hm. reflexivity.
      + destruct IH as [k Hk]. exists (S k).
        cbn [lines_read flat_map app firstn].
        change (flat_map _ ?t) with (lines_read t).
        rewrite lines_read_app, Hm, Hk. reflexivity. }
  destruct (main_events stdin) as [[e H]|[[e H]|(m & _ & H)]]; rewrite H.
  - exists 0. reflexivity.
  - exists 0. reflexivity.
  - destruct (Hloop {| model := m |}) as [k Hk]. exists k.
    rewrite !lines_read_app, Hk.
    destruct (outcome (command_loop {| model := m |} stdin));
      cbn; apply app_nil_r.
Qed.

(** X9: the loop ends normally on an exit command only.  When no line of
    standard input cleans to [exit] or [quit], the run ends on an exception
    (at the latest [EOFError], when the input runs out) and its last output
    is the critical-error message. *)
Theorem no_exit_ends_in_error (stdin : list string) :
  (forall line, In line stdin -> is_exit (clean line) = false) ->
  exists t e, events (main stdin) = t ++ [Raised e; Print (critical e)].
Proof.
  intros Hno.
  assert (Hloop : forall doctor,
             exists e, outcome (command_loop doctor stdin) = inl e).
  { intros doctor. induction stdin as [|line rest IH].
    - eexists. reflexivity.
    - rewrite command_loop_step, (Hno line) by (left; reflexivity).
      cbv zeta.
      destruct (outcome (if PyStr.truthy (clean line)
                         then diagnose doctor (clean line) else ret tt))
        as [e|u].
      + exists e. reflexivity.
      + apply IH. intros l Hl. apply Hno. right. exact Hl. }
  destruct (main_events stdin) as [[e H]|[[e H]|(m & _ & H)]]; rewrite H.
  - exists [Print msg_loading], e. reflexivity.
  - exists [Print msg_loading; LoadModel MODEL_PATH], e. reflexivity.
  - destruct (Hloop {| model := m |}) as [e He].
    pose proof (unhandled_command_loop {| model := m |} stdin) as Hun.
    unfold unhandled in Hun. rewrite He in *.
    destruct Hun as (t & -> & _).
    exists ([Print msg_loading; LoadModel MODEL_PATH; Print msg_online] ++ t), e.
    rewrite <- !app_assoc. reflexivity.
Qed.

(** ** More scores than classes *)

Lemma scan_classes_overflow (predictions : list Q) :
  forall (idx : nat) (findings : list string),
    idx <= 5 ->
    5 < idx + length predictions ->
    scan_classes idx predictions findings
    = (map Print (rows_in (skipn idx class_table) predictions)
         ++ [Raised (KeyError "5")],
       inl (KeyError "5")).
Proof.
  induction predictions as [|prob rest IH]; intros idx findings Hle Hlt;
    simpl in Hlt; [lia|].
  destruct (Nat.eq_dec idx 5) as [->|Hne].
  - reflexivity.
  - destruct (class_table_skipn idx) as (name & cutoff & Hnth & Hskip);
      [lia|].
    destruct (metadata_lookup idx name cutoff Hnth) as [Hname Hcut].
    rewrite Hskip. cbn [scan_classes]. unfold getitem.
    rewrite Hname, bind_ret, Hcut, bind_ret, bind_print.
    rewrite IH by lia. reflexivity.
Qed.

(** X10: a prediction vector with more than five scores gets the header and
    the five class rows, then [KeyError] on the class index 5: no rule and no
    final diagnosis line are printed. *)
Theorem too_many_scores (predictions : list Q) :
  5 < length predictions ->
  apply_safety_rules predictions
  = (Print report_header :: map Print (report_rows predictions)
       ++ [Raised (KeyError "5")],
     inl (KeyError "5"))
  /\ length (report_rows predictions) = 5.
Proof.
  intros Hlen. split.
  - unfold apply_safety_rules.
    rewrite scan_classes_overflow by (simpl; lia). reflexivity.
  - unfold report_rows, rows_in.
    rewrite length_map. unfold verdict. rewrite length_combine.
    change (length class_table) with 5. lia.
Qed.

(** ** A class is listed once *)

Lemma subsequence_In {A : Type} (s l : list A) (x : A) :
  subsequence s l -> In x s -> In x l.
Proof.
  induction 1 as [l|s y l _ IH|s y l _ IH]; simpl; intros Hin.
  - contradiction.
  - right. exact (IH Hin).
  - destruct Hin as [->|Hin]; [left; reflexivity | right; exact (IH Hin)].
Qed.

Lemma subsequence_NoDup {A : Type} (s l : list A) :
  subsequence s l -> NoDup l -> NoDup s.
Proof.
  induction 1 as [l|s y l _ IH|s y l Hsub IH]; intros Hnd.
  - constructor.
  - inversion Hnd. auto.
  - inversion Hnd as [|? ? Hnotin Hnd']. subst. constructor; [|auto].
    intros Hin. apply Hnotin. exact (subsequence_In _ _ _ Hsub Hin).
Qed.

Lemma class_names_NoDup : NoDup (map fst class_table).
Proof.
  change (map fst class_table)
    with ["Covid"; "Normal"; "Pneumonia"; "Tuberculosis"; "Tumor"].
  repeat (apply NoDup_cons; [simpl; intuition discriminate|]).
  apply NoDup_nil.
Qed.

Lemma detected_NoDup (predictions : list Q) : NoDup (detected predictions).
Proof.
  eapply subsequence_NoDup;
    [apply detected_in_subsequence | apply class_names_NoDup].
Qed.

Lemma all_normal (l : list string) :
  filter is_disease l = [] -> forall x, In x l -> x = "Normal".
Proof.
  induction l as [|a l IH]; simpl; [contradiction|].
  unfold is_disease at 1. destruct (String.eqb a "Normal") eqn:E; simpl.
  - intros H x [<-|Hin]; [apply String.eqb_eq; exact E | exact (IH H x Hin)].
  - discriminate.
Qed.

(** X11: whatever the class loop returns as findings lists no class twice and
    keeps the class order of the table. *)
Theorem findings_distinct (predictions : list Q) (findings : list string) :
  outcome (scan_classes 0 predictions []) = inr findings ->
  NoDup findings
  /\ subsequence findings
       ["Covid"; "Normal"; "Pneumonia"; "Tuberculosis"; "Tumor"].
Proof.
  intros H.
  destruct (le_gt_dec (length predictions) 5) as [Hle|Hgt].
  - rewrite scan_classes_ok in H by exact Hle. injection H as <-.
    split; [apply detected_NoDup|].
    exact (detected_in_subsequence class_table predictions).
  - rewrite scan_classes_overflow in H by (simpl; lia). discriminate H.
Qed.

(** X12: the report ends on the healthy line exactly when Normal is the only
    class detected; the second healthy branch of the conclusion, for findings
    that are not empty and hold nothing but Normal, is never what decides. *)
Theorem healthy_iff_lone_normal (predictions : list Q) :
  length predictions <= 5 ->
  (apply_safety_rules predictions = (report predictions msg_healthy, inr tt)
   <-> detected predictions = ["Normal"]).
Proof.
  intros Hlen. rewrite apply_safety_rules_ok by exact Hlen. split.
  - intros H. apply (f_equal fst) in H. cbn [fst] in H.
    apply report_final_inj in H.
    destruct (detected_diseases predictions) as [|d ds] eqn:Hdis.
    + pose proof (all_normal _ Hdis) as Hall.
      pose proof (detected_NoDup predictions) as Hnd.
      destruct (detected predictions) as [|a [|b l]].
      * rewrite conclusion_nil in H.
        exfalso. exact (msg_inconclusive_not_healthy H).
      * rewrite (Hall a) by (left; reflexivity). reflexivity.
      * exfalso. inversion Hnd as [|? ? Hnotin _]. apply Hnotin.
        rewrite (Hall a), (Hall b) by (simpl; auto). left. reflexivity.
    + unfold detected_diseases in Hdis.
      rewrite conclusion_diseases in H by (rewrite Hdis; discriminate).
      exfalso. exact (msg_signs_not_healthy _ H).
  - intros ->. rewrite conclusion_lone_normal. reflexivity.
Qed.

(** ** Construction that fails *)

(** X13: when the model file does not exist, every run is the loading
    banner, [FileNotFoundError] naming the file, and the critical-error
    message: loading is not attempted and no line is read. *)
Theorem missing_model_file (stdin : list string) :
  path_exists R MODEL_PATH = false ->
  main stdin
  = ([ Print "Loading AI Brain... (DenseNet121)";
       Raised (FileNotFoundError
                 "❌ Model file 'final_lung_ai_v1.h5' not found!");
       Print (critical
                (FileNotFoundError
                   "❌ Model file 'final_lung_ai_v1.h5' not found!")) ],
     inr tt).
Proof.
  intros Hex. unfold main, session, LungDoctor_init.
  rewrite Hex. reflexivity.
Qed.

(** X14: when the model file exists but loading it raises, every run is the
    loading banner, the load, and the critical-error message of that
    exception: the online banner is not printed and no line is read. *)
Theorem model_load_failure (stdin : list string) (e : exn) :
  path_exists R MODEL_PATH = true ->
  load_model R MODEL_PATH = inl e ->
  main stdin
  = ([ Print "Loading AI Brain... (DenseNet121)";
       LoadModel MODEL_PATH;
       Raised e;
       Print (critical e) ],
     inr tt).
Proof.
  intros Hex Hload. unfold main, session, LungDoctor_init.
  rewrite Hex, Hload. reflexivity.
Qed.

(** ** The comparison in single precision *)

Lemma np_greater_single (cutoff single prob : Q) :
  (Float.float32 (Float.float64 cutoff) == single)%Q ->
  (np_greater prob cutoff = true <-> (single < prob)%Q).
Proof.
  intros E. unfold np_greater. rewrite Qgtb_lt, E. reflexivity.
Qed.

Lemma report_table_single (idx : nat) (name : string) (cutoff : Q) :
  nth_error class_table idx = Some (name, cutoff) ->
  exists single,
    nth_error report_table idx = Some (name, cutoff, single)
    /\ forall prob, np_greater prob cutoff = true <-> (single < prob)%Q.
Proof.
  do 5 (destruct idx as [|idx];
        [intros H; injection H as <- <-; eexists; split; [reflexivity|];
         intros prob; apply np_greater_single; vm_compute; reflexivity|]).
  destruct idx; discriminate.
Qed.

Lemma report_table_class (idx : nat) (name : string) (cutoff single : Q) :
  nth_error report_table idx = Some (name, cutoff, single) ->
  nth_error class_table idx = Some (name, cutoff).
Proof.
  do 5 (destruct idx as [|idx];
        [intros H; injection H as <- <- <-; reflexivity|]).
  destruct idx; discriminate.
Qed.

Lemma status_text (single prob : Q) (b : bool) :
  (b = true <-> (single < prob)%Q) ->
  (if b then status_detected else status_clear)
  = (if Qlt_le_dec single prob then "⚠️ DETECTED" else "Clear").
Proof.
  intros H. destruct (Qlt_le_dec single prob) as [Hlt|Hle]; destruct b;
    try reflexivity; exfalso.
  - apply H in Hlt. discriminate.
  - apply (Qle_not_lt _ _ Hle). apply H. reflexivity.
Qed.

Lemma rows_in_texts (tbl : list (string * Q)) (tbl3 : list (string * Q * Q)) :
  Forall2 (fun c c3 =>
             fst c3 = c
             /\ forall prob,
                 np_greater prob (snd c) = true <-> (snd c3 < prob)%Q)
    tbl tbl3 ->
  forall predictions,
    rows_in tbl predictions
    = map (fun cp => row_text (fst cp) (snd cp)) (combine tbl3 predictions).
Proof.
  induction 1 as [|[name cutoff] [[name' cutoff'] single] tbl tbl3 [Hc Hs] _ IH];
    intros predictions; [reflexivity|].
  destruct predictions as [|prob rest]; [reflexivity|].
  simpl in Hc, Hs. injection Hc as -> ->.
  unfold rows_in in *. cbn [combine map]. rewrite IH. f_equal.
  unfold row, row_text, exceeds, v_name, v_prob, v_cutoff. cbn [fst snd].
  rewrite (status_text single prob _ (Hs prob)). reflexivity.
Qed.

Lemma report_rows_texts (predictions : list Q) :
  report_rows predictions = row_texts predictions.
Proof.
  apply rows_in_texts.
  repeat (apply Forall2_cons;
          [split; [reflexivity|];
           intros prob; apply np_greater_single; vm_compute; reflexivity|]).
  apply Forall2_nil.
Qed.

Lemma nth_error_combine {A B : Type} (l : list A) :
  forall (l' : list B) (n : nat) (a : A) (b : B),
    nth_error l n = Some a -> nth_error l' n = Some b ->
    nth_error (combine l l') n = Some (a, b).
Proof.
  induction l as [|x l IH]; intros l' n a b Ha Hb.
  - destruct n; discriminate Ha.
  - destruct l' as [|y l']; [destruct n; discriminate Hb|].
    destruct n as [|n]; simpl in *; [congruence | apply IH; assumption].
Qed.

(** C4, as the code has it: for every class index and every prediction
    vector, with the name and the cutoff the table gives the index (Covid
    0.1241, Normal 0.1651, Pneumonia 0.2921, Tuberculosis 0.1766, Tumor
    0.1009), the class loop prints the row of that class at that position,
    with the name, the score and the cutoff, and either the score strictly
    exceeds the single-precision number nearest to the cutoff, the row ends
    on DETECTED and the name is among the findings, or it does not, the row
    ends on Clear and the name is not among the findings. *)
Theorem detected_iff_exceeds_single (predictions : list Q) (idx : nat)
  (prob : Q) :
  length predictions <= 5 ->
  nth_error predictions idx = Some prob ->
  exists (name : string) (cutoff single : Q) (rows findings : list string),
    nth_error report_table idx = Some (name, cutoff, single)
    /\ scan_classes 0 predictions [] = (map Print rows, inr findings)
    /\ (((single < prob)%Q
          /\ nth_error rows idx
             = Some (PyStr.ljust name 15 ++ ": " ++ percent1 R prob
                       ++ " (Cutoff: " ++ percent1 R cutoff
                       ++ ") -> ⚠️ DETECTED")%string
          /\ In name findings)
        \/ (~ (single < prob)%Q
            /\ nth_error rows idx
               = Some (PyStr.ljust name 15 ++ ": " ++ percent1 R prob
                         ++ " (Cutoff: " ++ percent1 R cutoff
                         ++ ") -> Clear")%string
            /\ ~ In name findings)).
Proof.
  intros Hlen Hprob.
  assert (Hidx : idx < 5).
  { assert (idx < length predictions)
      by (apply nth_error_Some; congruence). lia. }
  destruct (class_table_skipn idx Hidx) as (name & cutoff & Hnth & _).
  destruct (report_table_single idx name cutoff Hnth) as (single & Hrt & Hgt).
  exists name, cutoff, single, (row_texts predictions), (detected predictions).
  split; [exact Hrt|].
  split; [rewrite <- report_rows_texts; apply scan_classes_ok; exact Hlen|].
  assert (Hrow : nth_error (row_texts predictions) idx
                 = Some (row_text (name, cutoff, single) prob)).
  { unfold row_texts. rewrite nth_error_map.
    rewrite (nth_error_combine _ _ _ _ _ Hrt Hprob). reflexivity. }
  assert (Hin : In name (detected predictions) <-> (single < prob)%Q).
  { rewrite <- Hgt. unfold detected. rewrite In_detected_in. split.
    - intros (j & c & q & Hj & Hq & Hc).
      assert (j = idx) by (eapply class_index_unique; eassumption).
      subst j. congruence.
    - intros Hc. exists idx, cutoff, prob. auto. }
  unfold row_text in Hrow. cbn [fst snd] in Hrow.
  destruct (Qlt_le_dec single prob) as [Hlt|Hle].
  - left. split; [exact Hlt|]. split; [exact Hrow | apply Hin; exact Hlt].
  - right. assert (Hn : ~ (single < prob)%Q) by (apply Qle_not_lt; exact Hle).
    split; [exact Hn|]. split; [exact Hrow|].
    intros H. apply Hn, Hin, H.
Qed.

(** ** The report of a diagnosis *)

Lemma conclusion_of_detected (predictions : list Q) :
  (detected_diseases predictions <> []
   /\ conclusion (detected predictions)
      = ("🚨 FINAL DIAGNOSIS: Signs of "
           ++ String.concat ", " (detected_diseases predictions))%string)
  \/ (detected predictions = ["Normal"]
      /\ conclusion (detected predictions)
         = "✅ FINAL DIAGNOSIS: Healthy Lungs")
  \/ (detected predictions = []
      /\ conclusion (detected predictions)
         = "❓ FINAL DIAGNOSIS: Inconclusive (Low confidence)").
Proof.
  destruct (detected_diseases predictions) as [|d ds] eqn:Hdis.
  - right. pose proof (all_normal _ Hdis) as Hall.
    pose proof (detected_NoDup predictions) as Hnd.
    destruct (detected predictions) as [|a [|b l]].
    + right. split; reflexivity.
    + left. rewrite (Hall a) by (left; reflexivity). split; reflexivity.
    + exfalso. inversion Hnd as [|? ? Hnotin _]. apply Hnotin.
      rewrite (Hall a), (Hall b) by (simpl; auto). left. reflexivity.
  - left. split; [discriminate|].
    unfold detected_diseases in Hdis.
    rewrite conclusion_diseases by (rewrite Hdis; discriminate).
    rewrite Hdis. reflexivity.
Qed.

(** C5, as the code has it: for every diagnosed image (the file exists, the
    picture loads, inference returns at most five scores), [diagnose] prints,
    after the header, exactly one row per score, in class order (five rows
    when inference returns one score per class), each row giving the class
    name, its probability, its cutoff and its DETECTED/Clear status, then the
    rule and exactly one final diagnosis line, which is the disease line, the
    healthy line or the inconclusive line as the rules say. *)
Theorem report_one_row_per_score (doctor : LungDoctor) (img_path : string)
  (img : Image R) (predictions : list Q) (more : list (list Q)) :
  path_exists R img_path = true ->
  load_img R img_path (224, 224) = inr img ->
  predict R (model doctor) (preprocessed img) = inr (predictions :: more) ->
  length predictions <= 5 ->
  exists final : string,
    diagnose doctor img_path
    = ([ Print (PyStr.nl ++ "🔎 Analyzing Patient: " ++ basename R img_path
                  ++ "...")%string;
         LoadImg img_path;
         Predict (model doctor) (preprocessed img);
         Print (PyStr.nl ++ "--- DETAILED REPORT ---")%string ]
         ++ map Print (row_texts predictions)
         ++ [ Print "------------------------------"; Print final ],
       inr tt)
    /\ length (row_texts predictions) = length predictions
    /\ (length predictions = 5 -> length (row_texts predictions) = 5)
    /\ ((detected_diseases predictions <> []
         /\ final = ("🚨 FINAL DIAGNOSIS: Signs of "
                       ++ String.concat ", " (detected_diseases predictions))
                    %string)
        \/ (detected predictions = ["Normal"]
            /\ final = "✅ FINAL DIAGNOSIS: Healthy Lungs")
        \/ (detected predictions = []
            /\ final = "❓ FINAL DIAGNOSIS: Inconclusive (Low confidence)")).
Proof.
  intros Hex Hload Hpred Hlen.
  exists (conclusion (detected predictions)).
  assert (Hrows : length (row_texts predictions) = length predictions).
  { unfold row_texts. rewrite length_map, length_combine.
    change (length report_table) with 5. lia. }
  split; [|split; [exact Hrows|split; [intros H5; rewrite Hrows; exact H5|]]].
  - rewrite (diagnose_ok doctor img_path img _ more Hex Hload Hpred Hlen).
    unfold report. rewrite report_rows_texts. reflexivity.
  - apply conclusion_of_detected.
Qed.

(** C10: for every prediction vector in which no class exceeds its cutoff,
    the final diagnosis line is the inconclusive one, which is neither the
    healthy line nor a line of disease names; and when diseases are
    reported, the line reads Signs of, then the detected names among Covid,
    Pneumonia, Tuberculosis, Tumor, in that order, a comma and a blank
    between them. *)
Theorem inconclusive_and_class_order (predictions : list Q) :
  length predictions <= 5 ->
  (detected predictions = [] ->
   apply_safety_rules predictions
   = (report predictions
        "❓ FINAL DIAGNOSIS: Inconclusive (Low confidence)", inr tt)
   /\ "❓ FINAL DIAGNOSIS: Inconclusive (Low confidence)"
      <> "✅ FINAL DIAGNOSIS: Healthy Lungs"
   /\ forall names : list string,
       "❓ FINAL DIAGNOSIS: Inconclusive (Low confidence)"
       <> ("🚨 FINAL DIAGNOSIS: Signs of " ++ String.concat ", " names)%string)
  /\ (detected_diseases predictions <> [] ->
      exists names : list string,
        apply_safety_rules predictions
        = (report predictions
             ("🚨 FINAL DIAGNOSIS: Signs of " ++ String.concat ", " names)
             %string,
           inr tt)
        /\ subsequence names ["Covid"; "Pneumonia"; "Tuberculosis"; "Tumor"]
        /\ forall name : string,
            In name names <->
            In name (detected predictions) /\ name <> "Normal").
Proof.
  intros Hlen. split.
  - intros Hnone. rewrite apply_safety_rules_ok by assumption.
    rewrite Hnone, conclusion_nil.
    split; [reflexivity|]. split; [discriminate|].
    intros names. simpl. discriminate.
  - intros Hdis. exists (detected_diseases predictions). split; [|split].
    + rewrite apply_safety_rules_ok by assumption.
      unfold detected_diseases in *.
      rewrite conclusion_diseases by assumption. reflexivity.
    + change ["Covid"; "Pneumonia"; "Tuberculosis"; "Tumor"]
        with (filter is_disease (map fst class_table)).
      apply subsequence_filter, detected_in_subsequence.
    + intros name. unfold detected_diseases, is_disease.
      rewrite filter_In, negb_true_iff, String.eqb_neq. reflexivity.
Qed.

(** ** The model along a run *)

Lemma load_facts (stdin : list string) :
  loads (events (main stdin)) <= 1
  /\ (forall pre path post,
        events (main stdin) = pre ++ LoadModel path :: post ->
        pre = [Print msg_loading] /\ path = MODEL_PATH)
  /\ (forall pre p line post,
        events (main stdin) = pre ++ Input p line :: post ->
        loads pre = 1 /\ loads post = 0)
  /\ (forall m x,
        In (Predict m x) (events (main stdin)) ->
        load_model R MODEL_PATH = inr m).
Proof.
  destruct (main_cases stdin) as [[e H]|[[e H]|(m & rest & Hm & H & Hrest)]];
    rewrite H.
  - split; [unfold loads; simpl; lia|]. split; [|split].
    + intros pre path post Heq.
      destruct pre as [|? [|? [|? [|? pre]]]]; discriminate Heq.
    + intros pre p line post Heq.
      destruct pre as [|? [|? [|? [|? pre]]]]; discriminate Heq.
    + intros m x [Hin|[Hin|[Hin|[]]]]; discriminate Hin.
  - split; [unfold loads; simpl; lia|]. split; [|split].
    + intros pre path post Heq.
      destruct pre as [|? [|? [|? [|? [|? pre]]]]]; try discriminate Heq.
      injection Heq as <- <- _. auto.
    + intros pre p line post Heq.
      destruct pre as [|? [|? [|? [|? [|? pre]]]]]; discriminate Heq.
    + intros m x [Hin|[Hin|[Hin|[Hin|[]]]]]; discriminate Hin.
  - pose proof (uses_only_loads _ _ Hrest) as Hzero.
    split; [|split; [|split]].
    + unfold loads in *. simpl. rewrite Hzero. lia.
    + intros pre path post Heq.
      destruct pre as [|a [|b [|c pre]]]; try discriminate Heq.
      * injection Heq as <- <- _. auto.
      * exfalso. injection Heq as _ _ _ Heq.
        rewrite Heq in Hrest. apply Forall_app in Hrest as [_ Hrest].
        inversion Hrest as [|? ? Hbad _]. exact Hbad.
    + intros pre p line post Heq.
      destruct pre as [|a [|b [|c pre]]]; try discriminate Heq.
      injection Heq as <- <- <- Heq.
      rewrite Heq in Hrest. apply Forall_app in Hrest as [Hpre Hpost].
      inversion Hpost as [|? ? _ Hpost']. subst.
      split.
      * pose proof (uses_only_loads _ _ Hpre) as Hp.
        unfold loads in *. simpl. rewrite Hp. reflexivity.
      * apply (uses_only_loads _ _ Hpost').
    + intros m' x [Hin|[Hin|[Hin|Hin]]]; try discriminate Hin.
      rewrite Forall_forall in Hrest. specialize (Hrest _ Hin).
      simpl in Hrest. subst m'. exact Hm.
Qed.

Lemma init_when_file_exists :
  path_exists R MODEL_PATH = true ->
  (exists e,
      load_model R MODEL_PATH = inl e
      /\ LungDoctor_init
         = ([Print msg_loading; LoadModel MODEL_PATH; Raised e], inl e))
  \/ (exists m,
        load_model R MODEL_PATH = inr m
        /\ LungDoctor_init
           = ([Print msg_loading; LoadModel MODEL_PATH; Print msg_online],
              inr {| model := m |})).
Proof.
  intros Hex. unfold LungDoctor_init.
  rewrite Hex. cbn [negb]. rewrite bind_print, bind_ret.
  destruct (load_model R MODEL_PATH) as [e|m].
  - left. exists e. split; reflexivity.
  - right. exists m. split; reflexivity.
Qed.

Lemma main_when_file_exists (stdin : list string) :
  path_exists R MODEL_PATH = true ->
  (exists e,
      load_model R MODEL_PATH = inl e
      /\ events (main stdin)
         = [Print msg_loading; LoadModel MODEL_PATH; Raised e;
            Print (critical e)])
  \/ (exists m,
        load_model R MODEL_PATH = inr m
        /\ events (main stdin)
           = [Print msg_loading; LoadModel MODEL_PATH; Print msg_online]
               ++ events (command_loop {| model := m |} stdin)
               ++ match outcome (command_loop {| model := m |} stdin) with
                  | inl e => [Print (critical e)]
                  | inr _ => []
                  end).
Proof.
  intros Hex. unfold main, session.
  destruct (init_when_file_exists Hex) as [(e & He & H)|(m & Hm & H)];
    rewrite H.
  - left. exists e. split; [exact He | reflexivity].
  - right. exists m. split; [exact Hm|].
    rewrite bind_value, events_try_except. cbn [outcome events fst snd].
    destruct (command_loop {| model := m |} stdin) as [t [e|[]]];
      cbn [fst snd].
    + rewrite <- app_assoc. reflexivity.
    + rewrite app_nil_r. reflexivity.
Qed.

Lemma command_loop_head (doctor : LungDoctor) (stdin : list string) :
  exists rest,
    events (command_loop doctor stdin) = Input prompt (hd_error stdin) :: rest.
Proof.
  destruct stdin as [|line more].
  - rewrite command_loop_nil. eexists. reflexivity.
  - rewrite command_loop_step.
    destruct (is_exit (clean line)); [eexists; reflexivity|].
    cbv zeta.
    destruct (outcome (if PyStr.truthy (clean line)
                       then diagnose doctor (clean line) else ret tt));
      eexists; reflexivity.
Qed.

(** C6: in every run whose model file exists, the model is loaded exactly
    once, at construction: right after the loading banner, from the model
    path, and never again.  When the load succeeds the online banner follows
    and the command loop starts with its first prompt, so the one load is
    before the loop; nothing after that loads a model, and every inference
    of the run is called on the model that load returned.  In any run there
    is at most one load, every line read has exactly one load before it and
    none after it. *)
Theorem model_loaded_once_at_construction (stdin : list string) :
  (path_exists R "final_lung_ai_v1.h5" = true ->
   exists rest,
     events (main stdin)
     = Print "Loading AI Brain... (DenseNet121)"
         :: LoadModel "final_lung_ai_v1.h5" :: rest
     /\ loads rest = 0
     /\ loads (events (main stdin)) = 1)
  /\ (forall m,
        path_exists R "final_lung_ai_v1.h5" = true ->
        load_model R "final_lung_ai_v1.h5" = inr m ->
        exists rest,
          events (main stdin)
          = Print "Loading AI Brain... (DenseNet121)"
              :: LoadModel "final_lung_ai_v1.h5"
              :: Print "✅ AI System Online."
              :: Input (PyStr.nl
                          ++ "Drag & Drop X-ray file here (or type 'exit'): ")
                   (hd_error stdin)
              :: rest
          /\ loads rest = 0
          /\ forall m' x, In (Predict m' x) rest -> m' = m)
  /\ loads (events (main stdin)) <= 1
  /\ (forall pre path post,
        events (main stdin) = pre ++ LoadModel path :: post ->
        pre = [Print "Loading AI Brain... (DenseNet121)"]
        /\ path = "final_lung_ai_v1.h5")
  /\ (forall pre p line post,
        events (main stdin) = pre ++ Input p line :: post ->
        loads pre = 1 /\ loads post = 0)
  /\ (forall m x,
        In (Predict m x) (events (main stdin)) ->
        load_model R "final_lung_ai_v1.h5" = inr m).
Proof.
  split; [|split; [|exact (load_facts stdin)]].
  - intros Hex.
    destruct (main_when_file_exists stdin Hex) as [(e & _ & H)|(m & _ & H)];
      rewrite H.
    + eexists. split; [reflexivity|]. split; reflexivity.
    + pose proof (command_loop_uses_only {| model := m |} stdin) as Hloop.
      assert (Hrest : Forall (uses_only {| model := m |})
                        (Print msg_online
                           :: events (command_loop {| model := m |} stdin)
                           ++ match outcome
                                      (command_loop {| model := m |} stdin) with
                              | inl e => [Print (critical e)]
                              | inr _ => []
                              end)).
      { apply Forall_cons; [exact I|]. apply Forall_app. split; [exact Hloop|].
        destruct (outcome (command_loop {| model := m |} stdin));
          repeat (apply Forall_cons; [exact I|]); apply Forall_nil. }
      pose proof (uses_only_loads _ _ Hrest) as Hzero.
      eexists. split; [reflexivity|]. split; [exact Hzero|].
      match type of Hzero with
      | loads ?rest = 0 => change (S (loads rest) = 1)
      end.
      rewrite Hzero. reflexivity.
  - intros m Hex Hm.
    destruct (main_when_file_exists stdin Hex) as [(e & He & _)|(m' & Hm' & H)];
      [pose proof (eq_trans (eq_sym He) Hm) as X; discriminate X|].
    pose proof (eq_trans (eq_sym Hm') Hm) as X. injection X as ->. rewrite H.
    pose proof (command_loop_uses_only {| model := m |} stdin) as Hloop.
    destruct (command_loop_head {| model := m |} stdin) as [rest Hrest].
    rewrite Hrest in *.
    inversion Hloop as [|? ? _ Hloop']. subst.
    assert (Hall : Forall (uses_only {| model := m |})
                     (rest ++ match outcome
                                      (command_loop {| model := m |} stdin) with
                              | inl e => [Print (critical e)]
                              | inr _ => []
                              end)).
    { apply Forall_app. split; [exact Hloop'|].
      destruct (outcome (command_loop {| model := m |} stdin));
        repeat (apply Forall_cons; [exact I|]); apply Forall_nil. }
    eexists. split; [reflexivity|]. split; [exact (uses_only_loads _ _ Hall)|].
    intros m' x Hin. rewrite Forall_forall in Hall.
    exact (Hall _ Hin).
Qed.

(** ** Exceptions along a run *)

Lemma raise_facts (stdin : list string) :
  outcome (main stdin) = inr tt
  /\ (forall e, outcome (session stdin) = inl e ->
                exists t, events (main stdin)
                          = t ++ [Raised e; Print (critical e)])
  /\ (forall pre e post,
        events (main stdin) = pre ++ Raised e :: post ->
        post = [Print (critical e)]).
Proof.
  pose proof (unhandled_session stdin) as Hun.
  unfold unhandled in Hun. unfold main.
  destruct (session stdin) as [t [e|[]]] eqn:Hs;
    cbn [outcome events fst snd try_except print emit app] in *.
  - destruct Hun as (t0 & -> & Hquiet). split; [reflexivity|]. split.
    + intros e' He'. injection He' as <-. exists t0.
      rewrite <- app_assoc. reflexivity.
    + intros pre e' post Heq. rewrite <- app_assoc in Heq.
      cbn [app] in Heq.
      destruct (raised_unique t0 [Print (critical e)] pre post e' e)
        as (_ & -> & ->); auto.
  - split; [reflexivity|]. split; [discriminate|].
    intros pre e post Heq. exfalso.
    exact (quiet_no_raised _ _ _ _ Hun Heq).
Qed.

Lemma liftK_bind {A B : Type} (m : M A) (f : A -> M B) :
  liftK (bind m f) = bindK (liftK m) (fun a => liftK (f a)).
Proof. destruct m as [t [e|a]]; reflexivity. Qed.

Lemma command_loop_key_lines (doctor : LungDoctor) (stdin : list string) :
  command_loop_key doctor (map Line stdin) = liftK (command_loop doctor stdin).
Proof.
  induction stdin as [|line rest IH]; [reflexivity|].
  rewrite command_loop_step. cbn [map command_loop_key input_key].
  change (liftK (input [line]))
    with (([Input prompt (Some line)], inr line) : MK string).
  cbn [bindK]. cbv zeta.
  destruct (is_exit (clean line)); [reflexivity|].
  rewrite IH.
  destruct (if PyStr.truthy (clean line)
            then diagnose doctor (clean line) else ret tt) as [t [e|[]]];
    cbn; [reflexivity|].
  destruct (command_loop doctor rest) as [t' [e'|[]]]; cbn;
    rewrite ?app_nil_r; reflexivity.
Qed.

Lemma session_key_lines (stdin : list string) :
  session_key (map Line stdin) = liftK (session stdin).
Proof.
  unfold session_key, session. rewrite liftK_bind.
  destruct (liftK LungDoctor_init) as [t [b|doctor]]; cbn [bindK];
    [reflexivity|].
  rewrite command_loop_key_lines. reflexivity.
Qed.

Lemma main_key_lines (stdin : list string) :
  main_key (map Line stdin) = liftK (main stdin).
Proof.
  unfold main_key, main. rewrite session_key_lines.
  destruct (session stdin) as [t [e|[]]]; reflexivity.
Qed.

(** C8, as the code has it: the only failure recovery is the handler around
    the whole program, and it is for exceptions of class [Exception].  As
    long as the keyboard does not interrupt, the run is the one of [main]:
    it never ends on an exception; when the session (the model loading and
    the command loop) raises, the run ends with the raise followed by the
    line Critical Error and the text of the exception; and wherever an
    exception is raised in a run, at construction, in preprocessing, in
    inference or anywhere else in the loop, the only thing that follows is
    that line: no further line is read and nothing is diagnosed after it. *)
Theorem exceptions_reach_handler (stdin : list string) :
  main_key (map Line stdin) = liftK (main stdin)
  /\ outcome (main stdin) = inr tt
  /\ (forall e,
        outcome (session stdin) = inl e ->
        exists t,
          events (main stdin)
          = t ++ [ Raised e;
                   Print (PyStr.nl ++ "❌ Critical Error: " ++ str_exn e)
                     %string ])
  /\ (forall pre e post,
        events (main stdin) = pre ++ Raised e :: post ->
        post = [Print (PyStr.nl ++ "❌ Critical Error: " ++ str_exn e)%string]).
Proof.
  split; [apply main_key_lines | exact (raise_facts stdin)].
Qed.

End Program.

Arguments events {R A} m.
Arguments outcome {R A} m.
Arguments loads {R} t.

(** * The program on the demo runtime *)

(** A whole session: a picture that is diagnosed, a quoted path to a missing
    file, an empty line, and the exit command; the last line is never read. *)
Example demo_session :
  main demo ["xray.png"; " 'missing.png' "; ""; "EXIT"; "never read"]
  = ([ Print demo msg_loading;
       LoadModel demo MODEL_PATH;
       Print demo msg_online;
       Input demo prompt (Some "xray.png");
       Print demo (msg_analyzing demo "xray.png");
       LoadImg demo "xray.png";
       Predict demo MODEL_PATH "xray.png";
       Print demo report_header;
       Print demo "Covid          : 50.0% (Cutoff: 12.4%) -> ⚠️ DETECTED";
       Print demo "Normal         : 50.0% (Cutoff: 16.5%) -> ⚠️ DETECTED";
       Print demo "Pneumonia      : 0.0% (Cutoff: 29.2%) -> Clear";
       Print demo "Tuberculosis   : 0.0% (Cutoff: 17.7%) -> Clear";
       Print demo "Tumor          : 0.0% (Cutoff: 10.1%) -> Clear";
       Print demo "------------------------------";
       Print demo "🚨 FINAL DIAGNOSIS: Signs of Covid";
       Input demo prompt (Some " 'missing.png' ");
       Print demo "❌ Error: File 'missing.png' not found.";
       Input demo prompt (Some "");
       Input demo prompt (Some "EXIT") ],
     inr tt).
Proof. vm_compute. reflexivity. Qed.

(** A picture that cannot be decoded ends the run: [xray.png] is never read. *)
Example demo_broken_picture :
  main demo ["broken.png"; "xray.png"]
  = ([ Print demo msg_loading;
       LoadModel demo MODEL_PATH;
       Print demo msg_online;
       Input demo prompt (Some "broken.png");
       Print demo (msg_analyzing demo "broken.png");
       LoadImg demo "broken.png";
       Raised demo (LibraryError "cannot identify image file 'broken.png'");
       Print demo
         (critical (LibraryError "cannot identify image file 'broken.png'")) ],
     inr tt).
Proof. vm_compute. reflexivity. Qed.

(** A sixth score has no class: the report stops on [KeyError]. *)
Example six_scores_raise :
  outcome (apply_safety_rules demo [0%Q; 0%Q; 0%Q; 0%Q; 0%Q; 0%Q])
  = inl (KeyError "5").
Proof. vm_compute. reflexivity. Qed.

(** * The statements at concrete inputs *)

(** C1 as the specification words it fails: on the demo scores both Normal
    and Covid are detected and the final line names Covid. *)
Lemma normal_does_not_override :
  In "Normal" (detected demo_scores)
  /\ detected_diseases demo_scores = ["Covid"]
  /\ apply_safety_rules demo demo_scores
     = (report demo demo_scores "🚨 FINAL DIAGNOSIS: Signs of Covid", inr tt)
  /\ ~ normal_overrides_disease demo demo_scores.
Proof.
  assert (Hn : In "Normal" (detected demo_scores))
    by (vm_compute; auto).
  assert (Hd : detected_diseases demo_scores = ["Covid"])
    by (vm_compute; reflexivity).
  assert (Hrun : apply_safety_rules demo demo_scores
                 = (report demo demo_scores (msg_signs ["Covid"]), inr tt)).
  { rewrite apply_safety_rules_ok by (simpl; lia).
    rewrite <- Hd. unfold detected_diseases.
    rewrite conclusion_diseases; [reflexivity|].
    fold (detected_diseases demo_scores). rewrite Hd. discriminate. }
  split; [exact Hn|]. split; [exact Hd|]. split; [exact Hrun|].
  intros H. assert (Hd' : detected_diseases demo_scores <> [])
    by (rewrite Hd; discriminate).
  specialize (H Hn Hd'). rewrite Hrun in H.
  apply (f_equal fst) in H. cbn [fst] in H.
  apply report_final_inj in H.
  exact (msg_signs_not_healthy ["Covid"] H).
Qed.

Lemma disease_overrides_normal_witness :
  length demo_scores <= 5
  /\ In "Normal" (detected demo_scores)
  /\ detected_diseases demo_scores <> []
  /\ apply_safety_rules demo demo_scores
     = (report demo demo_scores (msg_signs (detected_diseases demo_scores)),
        inr tt)
  /\ msg_signs (detected_diseases demo_scores) <> msg_healthy.
Proof.
  assert (Hlen : length demo_scores <= 5) by (simpl; lia).
  assert (Hn : In "Normal" (detected demo_scores)) by (vm_compute; auto).
  assert (Hd : detected_diseases demo_scores <> [])
    by (vm_compute; discriminate).
  split; [exact Hlen|]. split; [exact Hn|]. split; [exact Hd|].
  exact (disease_overrides_normal demo demo_scores Hlen Hn Hd).
Defined.

Lemma diseases_reported_witness :
  length [0%Q; 0%Q; 0.3%Q; 0%Q; 0.2%Q] <= 5
  /\ detected_diseases [0%Q; 0%Q; 0.3%Q; 0%Q; 0.2%Q] <> []
  /\ apply_safety_rules demo [0%Q; 0%Q; 0.3%Q; 0%Q; 0.2%Q]
     = (report demo [0%Q; 0%Q; 0.3%Q; 0%Q; 0.2%Q]
          "🚨 FINAL DIAGNOSIS: Signs of Pneumonia, Tumor", inr tt).
Proof.
  assert (Hlen : length [0%Q; 0%Q; 0.3%Q; 0%Q; 0.2%Q] <= 5) by (simpl; lia).
  assert (Hd : detected_diseases [0%Q; 0%Q; 0.3%Q; 0%Q; 0.2%Q] <> [])
    by (vm_compute; discriminate).
  split; [exact Hlen|]. split; [exact Hd|].
  exact (proj1 (diseases_reported demo _ Hlen Hd)).
Defined.

Lemma lone_normal_healthy_witness :
  detected [0.1%Q; 0.9%Q; 0%Q; 0%Q; 0%Q] = ["Normal"]
  /\ apply_safety_rules demo [0.1%Q; 0.9%Q; 0%Q; 0%Q; 0%Q]
     = (report demo [0.1%Q; 0.9%Q; 0%Q; 0%Q; 0%Q]
          "✅ FINAL DIAGNOSIS: Healthy Lungs", inr tt).
Proof.
  assert (H : detected [0.1%Q; 0.9%Q; 0%Q; 0%Q; 0%Q] = ["Normal"])
    by (vm_compute; reflexivity).
  split; [exact H|].
  apply (lone_normal_healthy demo [0.1%Q; 0.9%Q; 0%Q; 0%Q; 0%Q]);
    [simpl; lia | exact H].
Defined.

(** C7 as the specification words it fails: [missing.png] is a non-empty,
    non-exit path, and its iteration is the read and the error message, with
    no preprocessing and no inference. *)
Lemma missing_file_breaks_pipeline :
  is_exit (clean "missing.png") = false
  /\ PyStr.truthy (clean "missing.png") = true
  /\ loop_body demo (Build_LungDoctor demo MODEL_PATH) ["missing.png"]
     = ([ Input demo prompt (Some "missing.png");
          Print demo "❌ Error: File 'missing.png' not found." ],
        inr true)
  /\ ~ sequential_iteration demo (Build_LungDoctor demo MODEL_PATH) "missing.png" [].
Proof.
  assert (Hrun : loop_body demo (Build_LungDoctor demo MODEL_PATH) ["missing.png"]
                 = ([ Input demo prompt (Some "missing.png");
                      Print demo "❌ Error: File 'missing.png' not found." ],
                    inr true))
    by (vm_compute; reflexivity).
  split; [vm_compute; reflexivity|]. split; [vm_compute; reflexivity|].
  split; [exact Hrun|].
  intros (img & predictions & H). rewrite Hrun in H.
  unfold pipeline_trace in H. cbn [events fst app] in H.
  discriminate H.
Qed.

Lemma iteration_runs_pipeline_witness :
  loop_body demo (Build_LungDoctor demo MODEL_PATH) [" 'xray.png' "; "exit"]
  = (pipeline_trace demo (Build_LungDoctor demo MODEL_PATH) " 'xray.png' " "xray.png"
       demo_scores,
     inr true)
  /\ sequential_iteration demo (Build_LungDoctor demo MODEL_PATH) " 'xray.png' " ["exit"].
Proof.
  apply (iteration_runs_pipeline demo (Build_LungDoctor demo MODEL_PATH) " 'xray.png' "
           ["exit"] "xray.png" demo_scores []).
  - vm_compute; reflexivity.
  - vm_compute; reflexivity.
  - vm_compute; reflexivity.
  - vm_compute; reflexivity.
  - vm_compute; reflexivity.
  - simpl; lia.
Defined.

Lemma missing_file_skipped_witness :
  path_exists demo "missing.png" = false
  /\ diagnose demo (Build_LungDoctor demo MODEL_PATH) "missing.png"
     = ([Print demo "❌ Error: File 'missing.png' not found."], inr tt)
  /\ command_loop demo (Build_LungDoctor demo MODEL_PATH) [" 'missing.png' "; "exit"]
     = ([ Input demo prompt (Some " 'missing.png' ");
          Print demo "❌ Error: File 'missing.png' not found.";
          Input demo prompt (Some "exit") ],
        inr tt).
Proof.
  assert (Hex : path_exists demo "missing.png" = false)
    by (vm_compute; reflexivity).
  destruct (missing_file_skipped demo (Build_LungDoctor demo MODEL_PATH) "missing.png"
              Hex) as [Hdiag Hloop].
  split; [exact Hex|]. split; [exact Hdiag|].
  rewrite (Hloop " 'missing.png' " ["exit"]).
  - vm_compute. reflexivity.
  - vm_compute. reflexivity.
  - vm_compute. reflexivity.
  - vm_compute. reflexivity.
Defined.

(** * The further properties at concrete inputs *)

Lemma clean_unquotes_witness :
  all_space "  " = true
  /\ has_char PyStr.squote "my scans/chest 01.png" = false
  /\ has_char PyStr.dquote "my scans/chest 01.png" = false
  /\ clean "  'my scans/chest 01.png' " = "my scans/chest 01.png".
Proof.
  split; [reflexivity|]. split; [reflexivity|]. split; [reflexivity|].
  exact (clean_unquotes PyStr.squote "  " " " "my scans/chest 01.png"
           (or_introl eq_refl) eq_refl eq_refl eq_refl eq_refl).
Defined.

Lemma exit_ends_loop_witness :
  is_exit (clean " 'EXIT' ") = true
  /\ command_loop demo (Build_LungDoctor demo MODEL_PATH)
       [" 'EXIT' "; "xray.png"]
     = ([Input demo prompt (Some " 'EXIT' ")], inr tt).
Proof.
  split; [reflexivity|].
  apply (exit_ends_loop demo (Build_LungDoctor demo MODEL_PATH) " 'EXIT' "
           ["xray.png"]).
  reflexivity.
Defined.

Lemma blank_line_ignored_witness :
  clean "  ''  " = ""
  /\ command_loop demo (Build_LungDoctor demo MODEL_PATH) ["  ''  "; "quit"]
     = ([Input demo prompt (Some "  ''  "); Input demo prompt (Some "quit")],
        inr tt).
Proof.
  split; [reflexivity|].
  rewrite (blank_line_ignored demo (Build_LungDoctor demo MODEL_PATH)
             "  ''  " ["quit"]) by reflexivity.
  vm_compute. reflexivity.
Defined.

Lemma picture_failure_ends_loop_witness :
  load_img demo "broken.png" (224, 224)
  = inl (LibraryError "cannot identify image file 'broken.png'")
  /\ command_loop demo (Build_LungDoctor demo MODEL_PATH)
       ["broken.png"; "xray.png"]
     = ([ Input demo prompt (Some "broken.png");
          Print demo (msg_analyzing demo "broken.png");
          LoadImg demo "broken.png";
          Raised demo
            (LibraryError "cannot identify image file 'broken.png'") ],
        inl (LibraryError "cannot identify image file 'broken.png'")).
Proof.
  split; [reflexivity|].
  apply (picture_failure_ends_loop demo (Build_LungDoctor demo MODEL_PATH)
           "broken.png" ["xray.png"]); reflexivity.
Defined.

Lemma inference_failure_ends_loop_witness :
  command_loop demo_bad_inference
    (Build_LungDoctor demo_bad_inference MODEL_PATH) ["xray.png"; "exit"]
  = ([ Input demo_bad_inference prompt (Some "xray.png");
       Print demo_bad_inference (msg_analyzing demo_bad_inference "xray.png");
       LoadImg demo_bad_inference "xray.png";
       Predict demo_bad_inference MODEL_PATH "xray.png";
       Raised demo_bad_inference (LibraryError "out of memory") ],
     inl (LibraryError "out of memory")).
Proof.
  apply (inference_failure_ends_loop demo_bad_inference
           (Build_LungDoctor demo_bad_inference MODEL_PATH)
           "xray.png" ["exit"] "xray.png");
    reflexivity.
Defined.

Lemma no_exit_ends_in_error_witness :
  exists t e,
    events (main demo ["xray.png"; ""]) = t ++ [Raised demo e; Print demo (critical e)].
Proof.
  apply (no_exit_ends_in_error demo ["xray.png"; ""]).
  intros line [<-|[<-|[]]]; reflexivity.
Defined.

Lemma too_many_scores_witness :
  outcome (apply_safety_rules demo [0.9%Q; 0%Q; 0%Q; 0%Q; 0%Q; 0.1%Q])
  = inl (KeyError "5")
  /\ length (report_rows demo [0.9%Q; 0%Q; 0%Q; 0%Q; 0%Q; 0.1%Q]) = 5.
Proof.
  destruct (too_many_scores demo [0.9%Q; 0%Q; 0%Q; 0%Q; 0%Q; 0.1%Q])
    as [Hrun Hrows]; [simpl; lia|].
  split; [rewrite Hrun; reflexivity | exact Hrows].
Defined.

Lemma findings_distinct_witness :
  outcome (scan_classes demo 0 demo_scores []) = inr ["Covid"; "Normal"]
  /\ NoDup ["Covid"; "Normal"].
Proof.
  assert (H : outcome (scan_classes demo 0 demo_scores [])
              = inr ["Covid"; "Normal"]) by (vm_compute; reflexivity).
  split; [exact H|].
  exact (proj1 (findings_distinct demo demo_scores ["Covid"; "Normal"] H)).
Defined.

Lemma healthy_iff_lone_normal_witness :
  detected [0.1%Q; 0.9%Q; 0%Q; 0%Q; 0%Q] = ["Normal"]
  /\ apply_safety_rules demo [0.1%Q; 0.9%Q; 0%Q; 0%Q; 0%Q]
     = (report demo [0.1%Q; 0.9%Q; 0%Q; 0%Q; 0%Q] msg_healthy, inr tt).
Proof.
  assert (H : detected [0.1%Q; 0.9%Q; 0%Q; 0%Q; 0%Q] = ["Normal"])
    by (vm_compute; reflexivity).
  split; [exact H|].
  apply (healthy_iff_lone_normal demo [0.1%Q; 0.9%Q; 0%Q; 0%Q; 0%Q]);
    [simpl; lia | exact H].
Defined.

Lemma missing_model_file_witness :
  path_exists demo_no_model MODEL_PATH = false
  /\ events (main demo_no_model ["xray.png"; "exit"])
     = [ Print demo_no_model "Loading AI Brain... (DenseNet121)";
         Raised demo_no_model
           (FileNotFoundError
              "❌ Model file 'final_lung_ai_v1.h5' not found!");
         Print demo_no_model
           (critical
              (FileNotFoundError
                 "❌ Model file 'final_lung_ai_v1.h5' not found!")) ].
Proof.
  split; [reflexivity|].
  rewrite (missing_model_file demo_no_model ["xray.png"; "exit"])
    by reflexivity.
  reflexivity.
Defined.

Lemma model_load_failure_witness :
  load_model demo_bad_model MODEL_PATH = inl (LibraryError "bad file")
  /\ events (main demo_bad_model ["xray.png"; "exit"])
     = [ Print demo_bad_model "Loading AI Brain... (DenseNet121)";
         LoadModel demo_bad_model MODEL_PATH;
         Raised demo_bad_model (LibraryError "bad file");
         Print demo_bad_model (critical (LibraryError "bad file")) ].
Proof.
  split; [reflexivity|].
  rewrite (model_load_failure demo_bad_model ["xray.png"; "exit"]
             (LibraryError "bad file")) by reflexivity.
  reflexivity.
Defined.

(** * The revised statements at concrete inputs *)

(** The rounding model on the cutoffs of the table. *)
Example cutoffs_in_single_precision :
  map (fun c => Qred (Float.float32 (Float.float64 (snd c)))) thresholds
  = map (fun c => snd c) report_table.
Proof. vm_compute. reflexivity. Qed.

(** C4 as the specification words it fails: the single-precision score
    nearest to 0.2921 is strictly above 0.2921, and Pneumonia is reported
    Clear and is not among the findings. *)
Lemma single_cutoff_is_clear :
  (0.2921 < single_0_2921)%Q
  /\ scan_classes demo 0 [0%Q; 0%Q; single_0_2921; 0%Q; 0%Q] []
     = (map (Print demo)
          [ "Covid          : 0.0% (Cutoff: 12.4%) -> Clear";
            "Normal         : 0.0% (Cutoff: 16.5%) -> Clear";
            "Pneumonia      : 29.2% (Cutoff: 29.2%) -> Clear";
            "Tuberculosis   : 0.0% (Cutoff: 17.7%) -> Clear";
            "Tumor          : 0.0% (Cutoff: 10.1%) -> Clear" ],
        inr [])
  /\ ~ marks_by_decimal_cutoff demo [0%Q; 0%Q; single_0_2921; 0%Q; 0%Q] 2.
Proof.
  assert (Hlt : (0.2921 < single_0_2921)%Q) by reflexivity.
  assert (Hrun : scan_classes demo 0 [0%Q; 0%Q; single_0_2921; 0%Q; 0%Q] []
                 = (map (Print demo)
                      [ "Covid          : 0.0% (Cutoff: 12.4%) -> Clear";
                        "Normal         : 0.0% (Cutoff: 16.5%) -> Clear";
                        "Pneumonia      : 29.2% (Cutoff: 29.2%) -> Clear";
                        "Tuberculosis   : 0.0% (Cutoff: 17.7%) -> Clear";
                        "Tumor          : 0.0% (Cutoff: 10.1%) -> Clear" ],
                    inr []))
    by (vm_compute; reflexivity).
  split; [exact Hlt|]. split; [exact Hrun|].
  intros H.
  destruct (H single_0_2921 "Pneumonia" 0.2921%Q eq_refl eq_refl)
    as (rows & findings & Hscan & Hiff).
  rewrite Hrun in Hscan. apply (f_equal snd) in Hscan. cbn [snd] in Hscan.
  injection Hscan as <-. apply Hiff in Hlt. exact Hlt.
Qed.

Lemma detected_iff_exceeds_single_witness :
  exists rows findings : list string,
    scan_classes demo 0 demo_scores [] = (map (Print demo) rows, inr findings)
    /\ (11079673 # 67108864 < 0.5)%Q
    /\ nth_error rows 1
       = Some "Normal         : 50.0% (Cutoff: 16.5%) -> ⚠️ DETECTED"
    /\ In "Normal" findings.
Proof.
  destruct (detected_iff_exceeds_single demo demo_scores 1 0.5%Q)
    as (name & cutoff & single & rows & findings & Hnth & Hscan & Hcases).
  - simpl; lia.
  - reflexivity.
  - injection Hnth as <- <- <-. exists rows, findings.
    split; [exact Hscan|].
    destruct Hcases as [(Hlt & Hrow & Hin)|(Hnlt & _)].
    + split; [exact Hlt|]. split; [exact Hrow | exact Hin].
    + exfalso. apply Hnlt. reflexivity.
Defined.

(** C5 as the specification words it fails: when inference returns three
    scores the report has three rows. *)
Lemma three_scores_three_rows :
  diagnose demo_three_scores (Build_LungDoctor demo_three_scores MODEL_PATH)
    "xray.png"
  = ([ Print demo_three_scores (msg_analyzing demo_three_scores "xray.png");
       LoadImg demo_three_scores "xray.png";
       Predict demo_three_scores MODEL_PATH "xray.png";
       Print demo_three_scores report_header;
       Print demo_three_scores
         "Covid          : 50.0% (Cutoff: 12.4%) -> ⚠️ DETECTED";
       Print demo_three_scores
         "Normal         : 50.0% (Cutoff: 16.5%) -> ⚠️ DETECTED";
       Print demo_three_scores
         "Pneumonia      : 0.0% (Cutoff: 29.2%) -> Clear";
       Print demo_three_scores report_rule;
       Print demo_three_scores "🚨 FINAL DIAGNOSIS: Signs of Covid" ],
     inr tt)
  /\ ~ five_row_report demo_three_scores
         (Build_LungDoctor demo_three_scores MODEL_PATH) "xray.png".
Proof.
  assert (Hrun : diagnose demo_three_scores
                   (Build_LungDoctor demo_three_scores MODEL_PATH) "xray.png"
                 = ([ Print demo_three_scores
                        (msg_analyzing demo_three_scores "xray.png");
                      LoadImg demo_three_scores "xray.png";
                      Predict demo_three_scores MODEL_PATH "xray.png";
                      Print demo_three_scores report_header;
                      Print demo_three_scores
                        "Covid          : 50.0% (Cutoff: 12.4%) -> ⚠️ DETECTED";
                      Print demo_three_scores
                        "Normal         : 50.0% (Cutoff: 16.5%) -> ⚠️ DETECTED";
                      Print demo_three_scores
                        "Pneumonia      : 0.0% (Cutoff: 29.2%) -> Clear";
                      Print demo_three_scores report_rule;
                      Print demo_three_scores
                        "🚨 FINAL DIAGNOSIS: Signs of Covid" ],
                    inr tt))
    by (vm_compute; reflexivity).
  split; [exact Hrun|].
  intros (x & r0 & r1 & r2 & r3 & r4 & final & H).
  rewrite Hrun in H. apply (f_equal (@length _)) in H. discriminate H.
Qed.

Lemma report_one_row_per_score_witness :
  exists final : string,
    diagnose demo (Build_LungDoctor demo MODEL_PATH) "xray.png"
    = ([ Print demo (msg_analyzing demo "xray.png");
         LoadImg demo "xray.png";
         Predict demo MODEL_PATH "xray.png";
         Print demo report_header ]
         ++ map (Print demo) (row_texts demo demo_scores)
         ++ [ Print demo report_rule; Print demo final ],
       inr tt)
    /\ row_texts demo demo_scores
       = [ "Covid          : 50.0% (Cutoff: 12.4%) -> ⚠️ DETECTED";
           "Normal         : 50.0% (Cutoff: 16.5%) -> ⚠️ DETECTED";
           "Pneumonia      : 0.0% (Cutoff: 29.2%) -> Clear";
           "Tuberculosis   : 0.0% (Cutoff: 17.7%) -> Clear";
           "Tumor          : 0.0% (Cutoff: 10.1%) -> Clear" ]
    /\ final = "🚨 FINAL DIAGNOSIS: Signs of Covid".
Proof.
  destruct (report_one_row_per_score demo (Build_LungDoctor demo MODEL_PATH)
              "xray.png" "xray.png" demo_scores [])
    as (final & Hrun & _ & _ & Hfinal).
  - reflexivity.
  - reflexivity.
  - reflexivity.
  - simpl; lia.
  - exists final. split; [exact Hrun|]. split; [vm_compute; reflexivity|].
    destruct Hfinal as [[_ ->]|[[H _]|[H _]]].
    + vm_compute. reflexivity.
    + exfalso. vm_compute in H. discriminate H.
    + exfalso. vm_compute in H. discriminate H.
Defined.

Lemma model_loaded_once_at_construction_witness :
  path_exists demo "final_lung_ai_v1.h5" = true
  /\ loads (events (main demo ["xray.png"; "exit"])) = 1
  /\ exists rest,
       events (main demo ["xray.png"; "exit"])
       = Print demo "Loading AI Brain... (DenseNet121)"
           :: LoadModel demo "final_lung_ai_v1.h5"
           :: Print demo "✅ AI System Online."
           :: Input demo prompt (Some "xray.png")
           :: rest
       /\ loads rest = 0.
Proof.
  assert (Hex : path_exists demo "final_lung_ai_v1.h5" = true) by reflexivity.
  pose proof (model_loaded_once_at_construction demo ["xray.png"; "exit"])
    as (Hload & Hloop & _).
  split; [exact Hex|]. split.
  - destruct (Hload Hex) as (rest & _ & _ & Hone). exact Hone.
  - destruct (Hloop "final_lung_ai_v1.h5" Hex eq_refl)
      as (rest & Hrun & Hzero & _).
    exists rest. split; [exact Hrun | exact Hzero].
Defined.

(** C8 as the specification words it fails: Ctrl-C at the first prompt
    leaves the program as [KeyboardInterrupt]; the handler does not catch it
    and no critical-error message is printed. *)
Lemma ctrl_c_is_not_handled :
  main_key demo [CtrlC]
  = ([ Print demo "Loading AI Brain... (DenseNet121)";
       LoadModel demo "final_lung_ai_v1.h5";
       Print demo "✅ AI System Online.";
       Input demo prompt None ],
     inl KeyboardInterrupt)
  /\ ~ handled_by_top_level demo [CtrlC].
Proof.
  assert (Hrun : main_key demo [CtrlC]
                 = ([ Print demo "Loading AI Brain... (DenseNet121)";
                      LoadModel demo "final_lung_ai_v1.h5";
                      Print demo "✅ AI System Online.";
                      Input demo prompt None ],
                    inl KeyboardInterrupt))
    by (vm_compute; reflexivity).
  split; [exact Hrun|].
  intros H. destruct (H KeyboardInterrupt) as (t & msg & Hm).
  - vm_compute. reflexivity.
  - rewrite Hrun in Hm. apply (f_equal snd) in Hm. discriminate Hm.
Qed.

Lemma exceptions_reach_handler_witness :
  outcome (main demo ["broken.png"; "xray.png"]) = inr tt
  /\ exists pre,
       events (main demo ["broken.png"; "xray.png"])
       = pre ++ [ Raised demo
                    (LibraryError "cannot identify image file 'broken.png'");
                  Print demo
                    (PyStr.nl
                       ++ "❌ Critical Error: cannot identify image file 'broken.png'")
                    %string ].
Proof.
  pose proof (exceptions_reach_handler demo ["broken.png"; "xray.png"])
    as (_ & Hout & Hend & _).
  split; [exact Hout|].
  apply (Hend (LibraryError "cannot identify image file 'broken.png'")).
  vm_compute. reflexivity.
Defined.

Lemma inconclusive_and_class_order_witness :
  (detected [0.1%Q; 0.1%Q; 0.1%Q; 0.1%Q; 0.1%Q] = []
   /\ apply_safety_rules demo [0.1%Q; 0.1%Q; 0.1%Q; 0.1%Q; 0.1%Q]
      = (report demo [0.1%Q; 0.1%Q; 0.1%Q; 0.1%Q; 0.1%Q]
           "❓ FINAL DIAGNOSIS: Inconclusive (Low confidence)", inr tt))
  /\ exists names,
       apply_safety_rules demo [0.2%Q; 0.2%Q; 0.2%Q; 0.2%Q; 0.2%Q]
       = (report demo [0.2%Q; 0.2%Q; 0.2%Q; 0.2%Q; 0.2%Q]
            ("🚨 FINAL DIAGNOSIS: Signs of " ++ String.concat ", " names)
            %string,
          inr tt)
       /\ subsequence names ["Covid"; "Pneumonia"; "Tuberculosis"; "Tumor"].
Proof.
  split.
  - assert (H : detected [0.1%Q; 0.1%Q; 0.1%Q; 0.1%Q; 0.1%Q] = [])
      by (vm_compute; reflexivity).
    split; [exact H|].
    apply (proj1 (inconclusive_and_class_order demo
                    [0.1%Q; 0.1%Q; 0.1%Q; 0.1%Q; 0.1%Q]
                    ltac:(simpl; lia))).
    exact H.
  - destruct (proj2 (inconclusive_and_class_order demo
                       [0.2%Q; 0.2%Q; 0.2%Q; 0.2%Q; 0.2%Q]
                       ltac:(simpl; lia)))
      as (names & Hrun & Hsub & _).
    + vm_compute. discriminate.
    + exists names. split; [exact Hrun | exact Hsub].
Defined.
